(** * serverless-kubeless: deployment orchestration ([lib/deploy.js])

    A shallow embedding of the deployment engine: the readiness poller
    [waitForDeployment], the two submitters [deployFunctionAndWait] and
    [redeployFunctionAndWait], the ingress provisioner
    [addIngressRuleIfNecessary] and the batch coordinator [deploy].

    Conventions of the embedding.
    - A bluebird promise is its settlement state ([Pending], [Fulfilled],
      [Rejected]); [resolve] and [reject] only act on a pending promise.
    - The cluster is an input: every backend callback receives a response
      that the caller of the model supplies ([PodsResponse] per timer tick,
      the error of a POST or PUT, the listing of existing functions).
    - The log sink [opts.log] is a list of lines, newest last.
    - Moments are milliseconds since the epoch ([Z]); JS numbers used as
      counters are [Z]. *)

From Stdlib Require Import ZArith String Ascii List Bool Lia DecimalString.
Import ListNotations.
Open Scope string_scope.
Open Scope list_scope.
Open Scope Z_scope.

(** ** JavaScript values shared by all components *)

Module Js.

(** A template literal: the concatenation of its pieces. *)
Definition tpl (parts : list string) : string := String.concat EmptyString parts.

(** The line feed of a JS string literal. *)
Definition nl : string := String (ascii_of_nat 10) EmptyString.

(** The double quote character. *)
Definition dquote : string := String (ascii_of_nat 34) EmptyString.

(** Number to string, for integers. *)
Definition showZ (z : Z) : string := NilZero.string_of_int (Z.to_int z).

(** [_.startsWith(s, p)]. *)
Fixpoint startsWith (s p : string) : bool :=
  match p, s with
  | EmptyString, _ => true
  | String a p', String b s' => Ascii.eqb a b && startsWith s' p'
  | String _ _, EmptyString => false
  end.

(** [s.match(/pat/)] for a pattern without metacharacters: substring test. *)
Fixpoint includes (pat s : string) : bool :=
  if startsWith s pat then true
  else match s with
       | EmptyString => false
       | String _ rest => includes pat rest
       end.

(** [_.isEmpty] on a value that is a string, [null] or [undefined]. *)
Definition isEmptyStr (o : option string) : bool :=
  match o with
  | None => true
  | Some s => String.eqb s EmptyString
  end.

(** Truthiness of a value that is a string, [null] or [undefined]. *)
Definition truthyStr (o : option string) : bool := negb (isEmptyStr o).

(** [a || b] on such values. *)
Definition orElse (a b : option string) : option string :=
  if truthyStr a then a else b.

(** A memory size: a number (an integer) or a string. *)
Inductive Size :=
| SizeNumber (n : Z)
| SizeText (s : string).

(** Truthiness of a value that is a size, [null] or [undefined]: the
    number 0 and the empty string are falsy. *)
Definition truthySize (o : option Size) : bool :=
  match o with
  | Some (SizeNumber n) => negb (n =? 0)
  | Some (SizeText s) => negb (String.eqb s EmptyString)
  | None => false
  end.

(** [size.toString()]. *)
Definition sizeToString (m : Size) : string :=
  match m with
  | SizeNumber n => showZ n
  | SizeText s => s
  end.

(** [a || b] on such values. *)
Definition orElseSize (a b : option Size) : option Size :=
  if truthySize a then a else b.

(** What a promise is rejected with, or what [throw] raises: an [Error]
    object or a bare string.  [reasonToString] is [String(reason)]. *)
Inductive Reason :=
| ErrorObj (message : string)
| Str (text : string).

Definition reasonToString (r : Reason) : string :=
  match r with
  | ErrorObj m => tpl ["Error: "; m]
  | Str s => s
  end.

Inductive Promise (A : Type) :=
| Pending
| Fulfilled (value : A)
| Rejected (reason : Reason).
Arguments Pending {A}.
Arguments Fulfilled {A} value.
Arguments Rejected {A} reason.

(** The [resolve] and [reject] capabilities of a promise executor. *)
Definition resolve {A} (v : A) (p : Promise A) : Promise A :=
  match p with
  | Pending => Fulfilled v
  | _ => p
  end.

Definition reject {A} (r : Reason) (p : Promise A) : Promise A :=
  match p with
  | Pending => Rejected r
  | _ => p
  end.

(** An error handed to a backend callback. *)
Record ApiError := { code : Z; message : string }.

(** The result of code that may throw. *)
Inductive Result (A : Type) :=
| Ok (a : A)
| Throw (e : Reason).
Arguments Ok {A} a.
Arguments Throw {A} e.

End Js.
Import Js.

(** ** Readiness poller: [waitForDeployment] *)

Module Poller.

(** [pod.status.containerStatuses[i]]; [state] holds
    [JSON.stringify(cs.state)], which is [undefined] when the field is
    absent. *)
Record ContainerStatus := {
  ready : bool;
  restartCount : Z;
  state : option string
}.

(** [pod.metadata.labels], of which the entry [function] is read. *)
Record Labels := { function : option string }.

(** A pod of the listing: [metadata.labels] ([None] when the pod has no
    labels), the moment of [metadata.creationTimestamp], and
    [status.containerStatuses] ([None] when the field is absent). *)
Record Pod := {
  labels : option Labels;
  creationTimestamp : Z;
  containerStatuses : option (list ContainerStatus)
}.

(** What [core.pods.get] hands to its callback. *)
Inductive PodsResponse :=
| PodsError (message : string)
| PodsOk (items : list Pod).

(** [previousPodStatus]: the string [''] at first, then the array logged
    last.  An array element is a string or [undefined]. *)
Inductive Snapshot :=
| SnapInit
| SnapList (entries : list (option string)).

(** The closure state of one poll, with the pieces of the world it writes:
    the interval timer, the returned promise, the log and
    [process.exitCode]. *)
Record PollState := {
  retries : Z;
  successfulCount : Z;
  previousPodStatus : Snapshot;
  loop : bool;
  promise : Promise unit;
  logged : list string;
  exitCode : option Z
}.

Definition initial (exit0 : option Z) : PollState :=
  {| retries := 0; successfulCount := 0; previousPodStatus := SnapInit;
     loop := true; promise := Pending; logged := []; exitCode := exit0 |}.

(** Code that updates the poll state and may throw. *)
Definition M (A : Type) : Type := PollState -> Result A * PollState.

Definition ret {A} (a : A) : M A := fun s => (Ok a, s).

Definition bind {A B} (m : M A) (k : A -> M B) : M B :=
  fun s => match m s with
           | (Ok a, s') => k a s'
           | (Throw e, s') => (Throw e, s')
           end.

Definition throw {A} (e : Reason) : M A := fun s => (Throw e, s).

Definition gets {A} (f : PollState -> A) : M A := fun s => (Ok (f s), s).

Definition modify (f : PollState -> PollState) : M unit := fun s => (Ok tt, f s).

Declare Scope poll_scope.
Delimit Scope poll_scope with poll.
Notation "x <- m ;; k" := (bind m (fun x => k))
  (at level 61, m at next level, right associativity) : poll_scope.
Notation "m ;; k" := (bind m (fun _ => k))
  (at level 61, right associativity) : poll_scope.
Open Scope poll_scope.

Definition log (line : string) : M unit :=
  modify (fun s =>
    {| retries := retries s; successfulCount := successfulCount s;
       previousPodStatus := previousPodStatus s; loop := loop s;
       promise := promise s; logged := logged s ++ [line];
       exitCode := exitCode s |}).

Definition clearInterval : M unit :=
  modify (fun s =>
    {| retries := retries s; successfulCount := successfulCount s;
       previousPodStatus := previousPodStatus s; loop := false;
       promise := promise s; logged := logged s; exitCode := exitCode s |}).

Definition settle (f : Promise unit -> Promise unit) : M unit :=
  modify (fun s =>
    {| retries := retries s; successfulCount := successfulCount s;
       previousPodStatus := previousPodStatus s; loop := loop s;
       promise := f (promise s); logged := logged s;
       exitCode := exitCode s |}).

Definition setRetries (n : Z) : M unit :=
  modify (fun s =>
    {| retries := n; successfulCount := successfulCount s;
       previousPodStatus := previousPodStatus s; loop := loop s;
       promise := promise s; logged := logged s; exitCode := exitCode s |}).

Definition setSuccessfulCount (n : Z) : M unit :=
  modify (fun s =>
    {| retries := retries s; successfulCount := n;
       previousPodStatus := previousPodStatus s; loop := loop s;
       promise := promise s; logged := logged s; exitCode := exitCode s |}).

Definition setPreviousPodStatus (p : Snapshot) : M unit :=
  modify (fun s =>
    {| retries := retries s; successfulCount := successfulCount s;
       previousPodStatus := p; loop := loop s;
       promise := promise s; logged := logged s; exitCode := exitCode s |}).

(** [process.exitCode = process.exitCode || 1]. *)
Definition failExitCode : M unit :=
  modify (fun s =>
    {| retries := retries s; successfulCount := successfulCount s;
       previousPodStatus := previousPodStatus s; loop := loop s;
       promise := promise s; logged := logged s;
       exitCode := match exitCode s with
                   | Some c => if c =? 0 then Some 1 else Some c
                   | None => Some 1
                   end |}).

(** Reading a property of [undefined]. *)
Definition typeError (prop : string) : Reason :=
  ErrorObj (tpl ["Cannot read property '"; prop; "' of undefined"]).

(** The predicate of [_.filter(podsInfo.items, ...)]: reading
    [labels.function] of a pod without labels throws. *)
Definition isFunctionPod (funcName : string) (requestMoment : Z) (pod : Pod)
    : Result bool :=
  match labels pod with
  | None => Throw (typeError "function")
  | Some l =>
      Ok (match function l with
          | Some f => String.eqb f funcName
          | None => false
          end && (requestMoment <=? creationTimestamp pod))
  end.

(** [_.filter(podsInfo.items, ...)]: the predicate is run on every item in
    order, and the first exception ends the filter. *)
Fixpoint functionPodsOf (funcName : string) (requestMoment : Z)
    (items : list Pod) : Result (list Pod) :=
  match items with
  | [] => Ok []
  | pod :: rest =>
      match isFunctionPod funcName requestMoment pod with
      | Throw e => Throw e
      | Ok keep =>
          match functionPodsOf funcName requestMoment rest with
          | Throw e => Throw e
          | Ok pods => Ok (if keep then pod :: pods else pods)
          end
      end
  end.

(** A computation that does not touch the poll state. *)
Definition liftResult {A} (r : Result A) : M A := fun s => (r, s).

(** The body of [_.each(functionPods, pod => ...)] for one pod;
    [runningPods] is the counter of the enclosing tick. *)
Definition inspectPod (pod : Pod) (runningPods : Z) : M Z :=
  match containerStatuses pod with
  | None => ret runningPods
  | Some [] => throw (typeError "ready")
  | Some (first :: _) =>
      if ready first then ret (runningPods + 1)
      else if restartCount first >? 2 then
        log "ERROR: Failed to deploy the function" ;;
        failExitCode ;;
        clearInterval ;;
        ret runningPods
      else ret runningPods
  end.

Fixpoint eachPod (pods : list Pod) (runningPods : Z) : M Z :=
  match pods with
  | [] => ret runningPods
  | pod :: rest => n <- inspectPod pod runningPods ;; eachPod rest n
  end.

(** One element of [currentPodStatus]. *)
Definition podStatusOf (pod : Pod) : M (option string) :=
  match containerStatuses pod with
  | None => ret (Some "unknown")
  | Some [] => throw (typeError "state")
  | Some (first :: _) => ret (state first)
  end.

Fixpoint mapPodStatus (pods : list Pod) : M (list (option string)) :=
  match pods with
  | [] => ret []
  | pod :: rest =>
      x <- podStatusOf pod ;; xs <- mapPodStatus rest ;; ret (x :: xs)
  end.

Definition entry_eqb (a b : option string) : bool :=
  match a, b with
  | Some x, Some y => String.eqb x y
  | None, None => true
  | _, _ => false
  end.

Fixpoint entries_eqb (a b : list (option string)) : bool :=
  match a, b with
  | [], [] => true
  | x :: a', y :: b' => entry_eqb x y && entries_eqb a' b'
  | _, _ => false
  end.

(** [_.isEqual(previousPodStatus, currentPodStatus)]. *)
Definition snapshot_isEqual (prev : Snapshot) (current : list (option string)) : bool :=
  match prev with
  | SnapInit => false
  | SnapList entries => entries_eqb entries current
  end.

(** An array inside a template literal: [join(',')], [undefined] as ['']. *)
Definition showEntries (l : list (option string)) : string :=
  String.concat ","
    (map (fun e => match e with Some s => s | None => EmptyString end) l).

(** The callback of [core.pods.get]. *)
Definition onPods (funcName : string) (requestMoment : Z) (verbose : bool)
    (resp : PodsResponse) : M unit :=
  match resp with
  | PodsError msg =>
      if includes "request timed out" msg
      then log "Request timed out. Retrying..."
      else throw (ErrorObj msg)
  | PodsOk items =>
      functionPods <- liftResult (functionPodsOf funcName requestMoment items) ;;
      match functionPods with
      | [] =>
          r <- gets retries ;;
          setRetries (r + 1) ;;
          log (tpl ["Unable to find any running pod for "; funcName; ". Retrying..."])
      | _ :: _ =>
          runningPods <- eachPod functionPods 0 ;;
          if runningPods =? Z.of_nat (List.length functionPods) then
            c <- gets successfulCount ;;
            setSuccessfulCount (c + 1) ;;
            c' <- gets successfulCount ;;
            if c' =? 2 then
              log (tpl ["Function "; funcName; " succesfully deployed"]) ;;
              clearInterval ;;
              settle (resolve tt)
            else ret tt
          else if verbose then
            setSuccessfulCount 0 ;;
            currentPodStatus <- mapPodStatus functionPods ;;
            prev <- gets previousPodStatus ;;
            if negb (snapshot_isEqual prev currentPodStatus) then
              log (tpl ["Pods status: "; showEntries currentPodStatus]) ;;
              setPreviousPodStatus (SnapList currentPodStatus)
            else ret tt
          else ret tt
      end
  end.

Definition timeoutReason (funcName : string) : Reason :=
  Str (tpl ["Unable to retrieve the status of the "; funcName; " deployment"]).

(** One firing of the interval timer together with the callback of the
    pod listing it requests. *)
Definition tick (funcName : string) (requestMoment : Z) (verbose : bool)
    (resp : PodsResponse) : M unit :=
  r <- gets retries ;;
  (if r >? 3 then
     log (tpl ["Giving up, unable to retrieve the status of the "; funcName;
               " deployment. "]) ;;
     clearInterval ;;
     settle (reject (timeoutReason funcName))
   else ret tt) ;;
  onPods funcName requestMoment verbose resp.

(** The timer fires while it is armed; an exception that escapes a
    callback ends the process. *)
Fixpoint run (funcName : string) (requestMoment : Z) (verbose : bool)
    (responses : list PodsResponse) (s : PollState) : Result unit * PollState :=
  match responses with
  | [] => (Ok tt, s)
  | resp :: rest =>
      if loop s then
        match tick funcName requestMoment verbose resp s with
        | (Ok _, s') => run funcName requestMoment verbose rest s'
        | (Throw e, s') => (Throw e, s')
        end
      else (Ok tt, s)
  end.

(** [waitForDeployment(funcName, requestMoment, namespace, options)],
    observed after the cluster has answered [responses], one per tick. *)
Definition waitForDeployment (funcName : string) (requestMoment : Z)
    (namespace : string) (verbose : bool) (exit0 : option Z)
    (responses : list PodsResponse) : Result unit * PollState :=
  run funcName requestMoment verbose responses (initial exit0).

(** A response of the cluster in which no pod passes the filter. *)
Definition noMatchingPod (funcName : string) (requestMoment : Z)
    (resp : PodsResponse) : bool :=
  match resp with
  | PodsOk items =>
      match functionPodsOf funcName requestMoment items with
      | Ok [] => true
      | _ => false
      end
  | PodsError _ => false
  end.

Close Scope poll_scope.

End Poller.

(** ** Manifest builders: [getFunctionDescription], [getIngressDescription] *)

Module Manifest.

Record EnvVar := { envName : string; envValue : string }.

(** The single container of [spec.template]; [memory] is the value of both
    [resources.limits.memory] and [resources.requests.memory]. *)
Record Container := {
  containerName : string;
  env : option (list EnvVar);
  memory : option Size
}.

Record Spec := {
  deps : string;
  function : string;
  handler : string;
  runtime : string;
  template : option Container;
  type : string;
  topic : option string
}.

Record FunctionManifest := {
  apiVersion : string;
  kind : string;
  name : string;
  namespace : string;
  annotations : option (list (string * string));
  labels : option (list (string * string));
  spec : Spec
}.

Definition isDigit (c : ascii) : bool :=
  let n := nat_of_ascii c in ((48 <=? n) && (n <=? 57))%nat.

(** [s.match(/\d+$/)]: the string ends with a digit. *)
Fixpoint endsWithDigit (s : string) : bool :=
  match s with
  | EmptyString => false
  | String c EmptyString => isDigit c
  | String _ rest => endsWithDigit rest
  end.

(** [env] is held as the key/value pairs [_.each] visits, in order. *)
Definition getFunctionDescription (funcName namespace runtime : string)
    (deps : option string) (funcContent handler : string)
    (desc : option string) (labels : option (list (string * string)))
    (env : option (list (string * string))) (memory : option Size)
    (eventType : string) (eventTrigger : option string)
    : Result FunctionManifest :=
  let template :=
    match env, truthySize memory with
    | None, false => None
    | _, _ =>
        Some {| containerName := funcName;
                env := option_map
                         (map (fun kv => {| envName := fst kv; envValue := snd kv |}))
                         env;
                memory :=
                  match memory with
                  | Some m =>
                      if truthySize memory then
                        Some (if endsWithDigit (sizeToString m)
                              then SizeText (tpl [sizeToString m; "Mi"])
                              else m)
                      else None
                  | None => None
                  end |}
    end in
  let build (type : string) (topic : option string) :=
    {| apiVersion := "k8s.io/v1";
       kind := "Function";
       name := funcName;
       namespace := namespace;
       annotations :=
         if truthyStr desc then
           option_map (fun d => [("kubeless.serverless.com/description", d)]) desc
         else None;
       labels := labels;
       spec := {| deps := match orElse deps (Some EmptyString) with
                          | Some d => d
                          | None => EmptyString
                          end;
                  function := funcContent;
                  handler := handler;
                  runtime := runtime;
                  template := template;
                  type := type;
                  topic := topic |} |} in
  if String.eqb eventType "http" then Ok (build "HTTP" None)
  else if String.eqb eventType "trigger" then
    if isEmptyStr eventTrigger
    then Throw (ErrorObj "You should specify a topic for the trigger event")
    else Ok (build "PubSub" eventTrigger)
  else Throw (ErrorObj (tpl ["Event type "; eventType; " is not supported"])).

Record Backend := { serviceName : string; servicePort : Z }.

Record HttpPath := { path : string; backend : Backend }.

Record Rule := { host : string; paths : list HttpPath }.

Record IngressManifest := {
  ingressKind : string;
  ingressName : string;
  ingressLabels : list (string * string);
  ingressAnnotations : list (string * string);
  rules : list Rule
}.

Definition getIngressDescription (funcName funcPath funcHost : string)
    : IngressManifest :=
  {| ingressKind := "Ingress";
     ingressName := tpl ["ingress-"; funcName];
     ingressLabels := [("function", funcName)];
     ingressAnnotations :=
       [("kubernetes.io/ingress.class", "nginx");
        ("ingress.kubernetes.io/rewrite-target", "/")];
     rules :=
       [{| host := funcHost;
           paths := [{| path := funcPath;
                        backend := {| serviceName := funcName;
                                      servicePort := 8080 |} |}] |}] |}.

End Manifest.

(** ** Deployment submitter: [deployFunctionAndWait], [redeployFunctionAndWait] *)

Module Submitter.
Import Manifest.

(** The arguments of one call of [waitForDeployment]. *)
Record PollCall := {
  pollFuncName : string;
  pollRequestMoment : Z;
  pollNamespace : string;
  pollVerbose : bool
}.

(** A request sent to the functions resource. *)
Inductive Request :=
| Post (body : FunctionManifest)
| Put (name : string) (body : FunctionManifest).

(** What one submission did: the promise it returned, the request it
    sent, the poll it started (with the state that poll reached), its log
    lines and [process.exitCode]. *)
Record Submission := {
  outcome : Promise bool;
  request : Request;
  pollCall : option PollCall;
  poll : option (Result unit * Poller.PollState);
  logged : list string;
  exitCode : option Z
}.

(** [moment().milliseconds(0)] at the instant [now]. *)
Definition requestMomentAt (now : Z) : Z := now - now mod 1000.

(** [waitForDeployment(...).then(() => { resolve(true); })]: only the
    fulfilment of the poll reaches [resolve]. *)
Definition thenResolveTrue (p : Promise unit) : Promise bool :=
  match p with
  | Fulfilled _ => resolve true Pending
  | _ => Pending
  end.

Definition startPoll (request : Request) (call : PollCall) (before : list string)
    (exit0 : option Z) (responses : list Poller.PodsResponse) : Submission :=
  let r := Poller.waitForDeployment (pollFuncName call) (pollRequestMoment call)
             (pollNamespace call) (pollVerbose call) exit0 responses in
  {| outcome := thenResolveTrue (Poller.promise (snd r));
     request := request;
     pollCall := Some call;
     poll := Some r;
     logged := before ++ Poller.logged (snd r);
     exitCode := Poller.exitCode (snd r) |}.

(** [deployFunctionAndWait(body, thirdPartyResources, options)] called at
    [now]; [namespace] is [thirdPartyResources.namespaces.namespace],
    [postErr] the error given to the callback of the POST and
    [responses] the pod listings of the poll. *)
Definition deployFunctionAndWait (body : FunctionManifest) (namespace : string)
    (verbose : bool) (now : Z) (exit0 : option Z) (postErr : option ApiError)
    (responses : list Poller.PodsResponse) : Submission :=
  let requestMoment := requestMomentAt now in
  let deploying := [tpl ["Deploying function "; name body; "..."]] in
  match postErr with
  | Some err =>
      if code err =? 409 then
        {| outcome := resolve false Pending;
           request := Post body;
           pollCall := None;
           poll := None;
           logged := deploying ++
             [tpl ["The function "; name body; " already exists. ";
                   "Redeploy it usign --force or executing ";
                   dquote; "sls deploy function -f "; name body; dquote; "."]];
           exitCode := exit0 |}
      else
        {| outcome := reject (ErrorObj
             (tpl ["Unable to deploy the function "; name body; ". Received:"; nl;
                   "  Code: "; showZ (code err); nl;
                   "  Message: "; message err])) Pending;
           request := Post body;
           pollCall := None;
           poll := None;
           logged := deploying;
           exitCode := exit0 |}
  | None =>
      startPoll (Post body)
        {| pollFuncName := name body; pollRequestMoment := requestMoment;
           pollNamespace := namespace; pollVerbose := verbose |}
        deploying exit0 responses
  end.

(** [redeployFunctionAndWait(body, thirdPartyResources, options)]. *)
Definition redeployFunctionAndWait (body : FunctionManifest) (namespace : string)
    (verbose : bool) (now : Z) (exit0 : option Z) (putErr : option ApiError)
    (responses : list Poller.PodsResponse) : Submission :=
  let requestMoment := requestMomentAt now in
  match putErr with
  | Some err =>
      {| outcome := reject (ErrorObj
           (tpl ["Unable to update the function "; name body; ". Received:"; nl;
                 "  Code: "; showZ (code err); nl;
                 "  Message: "; message err])) Pending;
         request := Put (name body) body;
         pollCall := None;
         poll := None;
         logged := [];
         exitCode := exit0 |}
  | None =>
      startPoll (Put (name body) body)
        {| pollFuncName := name body; pollRequestMoment := requestMoment;
           pollNamespace := namespace; pollVerbose := verbose |}
        [] exit0 responses
  end.

End Submitter.

(** ** Ingress provisioner: [addIngressRuleIfNecessary] *)

Module Ingress.
Import Manifest.

(** What one call did: the ingress documents it posted, the promise it
    returned and its log lines. *)
Record Provision := {
  posts : list IngressManifest;
  outcome : Promise unit;
  logged : list string
}.

(** [apiHostname] is [url.parse(helpers.getKubernetesAPIURL(config)).hostname];
    [postErr] is the error given to the callback of the POST, when one is
    sent. *)
Definition addIngressRuleIfNecessary (funcName eventType : string)
    (eventPath eventHostname : option string) (namespace : string)
    (verbose : bool) (apiHostname : string) (postErr : option ApiError)
    : Provision :=
  let fpath := match orElse eventPath (Some "/") with
               | Some p => p
               | None => "/"
               end in
  let hostname := match orElse eventHostname (Some (tpl [apiHostname; ".nip.io"])) with
                  | Some h => h
                  | None => tpl [apiHostname; ".nip.io"]
                  end in
  if String.eqb eventType "http" &&
     ((negb (isEmptyStr eventPath) &&
       negb (match eventPath with Some p => String.eqb p "/" | None => false end))
      || negb (isEmptyStr eventHostname))
  then
    let absolutePath := if startsWith fpath "/" then fpath else tpl ["/"; fpath] in
    let ingressDef := getIngressDescription funcName absolutePath hostname in
    match postErr with
    | Some err =>
        {| posts := [ingressDef];
           outcome := reject (Str
             (tpl ["Unable to deploy the function "; funcName; " in the given path. ";
                   "Received: "; message err])) Pending;
           logged := [] |}
    | None =>
        {| posts := [ingressDef];
           outcome := resolve tt Pending;
           logged := if verbose
                     then [tpl ["Deployed Ingress rule to map "; absolutePath]]
                     else [] |}
    end
  else
    {| posts := [];
       outcome := resolve tt Pending;
       logged := if verbose then ["Skipping ingress rule generation"] else [] |}.

End Ingress.

(** ** Batch coordinator: [deploy] *)

Module Event.
Record t := {
  type : string;
  path : option string;
  hostname : option string;
  trigger : option string
}.
End Event.

Module Description.
Record t := {
  id : string;
  handler : option string;
  deps : option string;
  text : string;
  description : option string;
  labels : option (list (string * string));
  environment : option (list (string * string));
  memorySize : option Size;
  namespace : option string;
  events : list Event.t
}.
End Description.

Module Options.
Record t := {
  hostname : option string;
  namespace : option string;
  memorySize : option Size;
  force : bool;
  verbose : bool
}.
End Options.

Module Batch.
Import Manifest.

(** The collaborators in [./helpers], which the engine only calls:
    [connectionNamespace ns] is the namespace of
    [helpers.getConnectionOptions(helpers.loadKubeConfig(), { namespace: ns })],
    which the resource client reports as [namespaces.namespace];
    [apiHostname] is the host name of [helpers.getKubernetesAPIURL(config)]. *)
Record Helpers := {
  connectionNamespace : option string -> string;
  apiHostname : string
}.

(** One function x event operation, as the executor schedules it. *)
Record Op := {
  opDescription : Description.t;
  opEvent : Event.t;
  funcs : FunctionManifest;
  connNamespace : string
}.

(** The synchronous part of the executor: the operations whose listing
    was requested, the lines logged, and the exception that ended the
    iteration, if any. *)
Record Scheduled := {
  ops : list Op;
  skipped : list string;
  thrown : option Reason
}.

Definition defaultEvents : list Event.t :=
  [{| Event.type := "http"; Event.path := Some "/";
      Event.hostname := None; Event.trigger := None |}].

Definition handlerText (d : Description.t) : string :=
  match Description.handler d with
  | Some h => h
  | None => EmptyString
  end.

Fixpoint eachEvent (h : Helpers) (runtime : string) (opts : Options.t)
    (d : Description.t) (events : list Event.t) (acc : Scheduled) : Scheduled :=
  match events with
  | [] => acc
  | event :: rest =>
      let ns := connectionNamespace h
                  (orElse (Description.namespace d) (Options.namespace opts)) in
      match getFunctionDescription (Description.id d) ns runtime
              (Description.deps d) (Description.text d) (handlerText d)
              (Description.description d) (Description.labels d)
              (Description.environment d)
              (orElseSize (Description.memorySize d) (Options.memorySize opts))
              (Event.type event) (Event.trigger event) with
      | Ok f =>
          eachEvent h runtime opts d rest
            {| ops := ops acc ++
                      [{| opDescription := d; opEvent := event; funcs := f;
                          connNamespace := ns |}];
               skipped := skipped acc;
               thrown := thrown acc |}
      | Throw e =>
          {| ops := ops acc; skipped := skipped acc; thrown := Some e |}
      end
  end.

Fixpoint eachFunction (h : Helpers) (runtime : string) (opts : Options.t)
    (functions : list Description.t) (acc : Scheduled) : Scheduled :=
  match functions with
  | [] => acc
  | d :: rest =>
      if truthyStr (Description.handler d) then
        let events := match Description.events d with
                      | [] => defaultEvents
                      | _ :: _ => Description.events d
                      end in
        let acc' := eachEvent h runtime opts d events acc in
        match thrown acc' with
        | Some _ => acc'
        | None => eachFunction h runtime opts rest acc'
        end
      else
        eachFunction h runtime opts rest
          {| ops := ops acc;
             skipped := skipped acc ++
               [tpl ["Skipping deployment of "; Description.id d;
                     " since it doesn't have a handler"]];
             thrown := thrown acc |}
  end.

Definition schedule (h : Helpers) (runtime : string) (opts : Options.t)
    (functions : list Description.t) : Scheduled :=
  eachFunction h runtime opts functions
    {| ops := []; skipped := []; thrown := None |}.

(** An item of the listing of existing functions. *)
Record Existing := { itemName : string; itemSpec : Spec }.

Inductive Listing :=
| ListError (e : Reason)
| ListOk (items : list Existing).

(** What the cluster answers to one operation: the listing, the clock at
    the submission, the error of the POST or PUT, the pod listings of the
    poll, and the error of the ingress POST. *)
Record OpEnv := {
  listing : Listing;
  now : Z;
  submitErr : option ApiError;
  podResponses : list Poller.PodsResponse;
  ingressErr : option ApiError
}.

Definition envVar_eqb (a b : EnvVar) : bool :=
  String.eqb (envName a) (envName b) && String.eqb (envValue a) (envValue b).

Fixpoint list_eqb {A} (eqb : A -> A -> bool) (a b : list A) : bool :=
  match a, b with
  | [], [] => true
  | x :: a', y :: b' => eqb x y && list_eqb eqb a' b'
  | _, _ => false
  end.

Definition option_eqb {A} (eqb : A -> A -> bool) (a b : option A) : bool :=
  match a, b with
  | Some x, Some y => eqb x y
  | None, None => true
  | _, _ => false
  end.

Definition size_eqb (a b : Size) : bool :=
  match a, b with
  | SizeNumber x, SizeNumber y => x =? y
  | SizeText x, SizeText y => String.eqb x y
  | _, _ => false
  end.

Definition container_eqb (a b : Container) : bool :=
  String.eqb (containerName a) (containerName b) &&
  option_eqb (list_eqb envVar_eqb) (env a) (env b) &&
  option_eqb size_eqb (memory a) (memory b).

(** [_.isEqual] on two specs. *)
Definition spec_isEqual (a b : Spec) : bool :=
  String.eqb (deps a) (deps b) &&
  String.eqb (function a) (function b) &&
  String.eqb (handler a) (handler b) &&
  String.eqb (runtime a) (runtime b) &&
  option_eqb container_eqb (template a) (template b) &&
  String.eqb (type a) (type b) &&
  option_eqb String.eqb (topic a) (topic b).

(** The two flags set by [_.each(functionsInfo.items, ...)]. *)
Definition existingFunction (items : list Existing) (f : FunctionManifest) : bool :=
  existsb (fun item => String.eqb (itemName item) (name f)) items.

Definition existingSameFunction (items : list Existing) (f : FunctionManifest) : bool :=
  existsb (fun item => String.eqb (itemName item) (name f) &&
                       spec_isEqual (itemSpec item) (spec f)) items.

(** The arguments of one call of [addIngressRuleIfNecessary]. *)
Record IngressCall := {
  callFuncName : string;
  callEventType : string;
  callEventPath : option string;
  callEventHostname : option string;
  callNamespace : string
}.

(** The shared state of a batch with what it did to the cluster:
    [errors] and [counter] of the closure, the promise [deploy] returned,
    the log, [process.exitCode], the requests sent to the functions
    resource, the calls of the ingress provisioner, the ingress documents
    posted, and the exception that ended the process, if any. *)
Record State := {
  errors : list Reason;
  counter : Z;
  outcome : Promise unit;
  logged : list string;
  exitCode : option Z;
  requests : list Submitter.Request;
  ingressCalls : list IngressCall;
  ingressPosts : list IngressManifest;
  uncaught : option Reason
}.

(** [new Error('Found errors ...:\n' + errors.join('\n'))]. *)
Definition aggregate (errors : list Reason) : Reason :=
  ErrorObj (tpl ["Found errors while deploying the given functions:"; nl;
                 String.concat nl (map reasonToString errors)]).

(** The callback of [p.then(...)], run when [p] is fulfilled; [total] is
    [_.keys(functions).length]. *)
Definition onProvisioned (total : Z) (s : State) : State :=
  let counter' := counter s + 1 in
  {| errors := errors s;
     counter := counter';
     outcome := if counter' =? total then
                  match errors s with
                  | [] => resolve tt (outcome s)
                  | _ :: _ => reject (aggregate (errors s)) (outcome s)
                  end
                else outcome s;
     logged := logged s;
     exitCode := exitCode s;
     requests := requests s;
     ingressCalls := ingressCalls s;
     ingressPosts := ingressPosts s;
     uncaught := uncaught s |}.

(** [errors.push(e)]. *)
Definition pushError (e : Reason) (s : State) : State :=
  {| errors := errors s ++ [e];
     counter := counter s;
     outcome := outcome s;
     logged := logged s;
     exitCode := exitCode s;
     requests := requests s;
     ingressCalls := ingressCalls s;
     ingressPosts := ingressPosts s;
     uncaught := uncaught s |}.

(** The settlement of [p]: [p.catch] pushes the reason of a rejection,
    [p.then] runs [onProvisioned] on fulfilment. *)
Definition afterProvision (total : Z) (p : Promise unit) (s : State) : State :=
  match p with
  | Pending => s
  | Fulfilled _ => onProvisioned total s
  | Rejected e => pushError e s
  end.

(** The callback of [.then((deployed) => ...)]: [deployed] is [None] for
    [undefined], the value the [catch] handler returns. *)
Definition onDeployed (total : Z) (opts : Options.t) (h : Helpers) (op : Op)
    (env : OpEnv) (redeployed : bool) (deployed : option bool) (s : State)
    : State :=
  if negb (match deployed with Some b => b | None => false end) || redeployed then
    afterProvision total (resolve tt Pending) s
  else
    let event := opEvent op in
    let eventHostname := orElse (Event.hostname event) (Options.hostname opts) in
    let p := Ingress.addIngressRuleIfNecessary
               (Description.id (opDescription op)) (Event.type event)
               (Event.path event) eventHostname (connNamespace op)
               (Options.verbose opts) (apiHostname h) (ingressErr env) in
    afterProvision total (Ingress.outcome p)
      {| errors := errors s;
         counter := counter s;
         outcome := outcome s;
         logged := logged s ++ Ingress.logged p;
         exitCode := exitCode s;
         requests := requests s;
         ingressCalls := ingressCalls s ++
           [{| callFuncName := Description.id (opDescription op);
               callEventType := Event.type event;
               callEventPath := Event.path event;
               callEventHostname := eventHostname;
               callNamespace := connNamespace op |}];
         ingressPosts := ingressPosts s ++ Ingress.posts p;
         uncaught := uncaught s |}.

(** The settlement of [deploymentPromise] through
    [.catch(deploymentErr => { errors.push(deploymentErr); }).then(...)]. *)
Definition afterDeployment (total : Z) (opts : Options.t) (h : Helpers) (op : Op)
    (env : OpEnv) (redeployed : bool) (deploymentPromise : Promise bool)
    (s : State) : State :=
  match deploymentPromise with
  | Pending => s
  | Fulfilled deployed => onDeployed total opts h op env redeployed (Some deployed) s
  | Rejected e => onDeployed total opts h op env redeployed None (pushError e s)
  end.

(** The state after a submission ran: its request, log lines and exit
    code, and the exception that escaped its poll, if any. *)
Definition afterSubmission (sub : Submitter.Submission) (s : State) : State :=
  {| errors := errors s;
     counter := counter s;
     outcome := outcome s;
     logged := logged s ++ Submitter.logged sub;
     exitCode := Submitter.exitCode sub;
     requests := requests s ++ [Submitter.request sub];
     ingressCalls := ingressCalls s;
     ingressPosts := ingressPosts s;
     uncaught := match Submitter.poll sub with
                 | Some (Throw e, _) => Some e
                 | _ => uncaught s
                 end |}.

(** The callback of [thirdPartyResources.ns.functions.get] for one
    operation, followed to the end of the promise chain it starts. *)
Definition onFunctionsInfo (total : Z) (opts : Options.t) (h : Helpers) (op : Op)
    (env : OpEnv) (s : State) : State :=
  match listing env with
  | ListError e =>
      {| errors := errors s; counter := counter s; outcome := outcome s;
         logged := logged s; exitCode := exitCode s; requests := requests s;
         ingressCalls := ingressCalls s; ingressPosts := ingressPosts s;
         uncaught := Some e |}
  | ListOk items =>
      if existingSameFunction items (funcs op) then
        afterDeployment total opts h op env false (resolve false Pending)
          {| errors := errors s; counter := counter s; outcome := outcome s;
             logged := logged s ++
               [tpl ["Function "; Description.id (opDescription op);
                     " has not changed. Skipping deployment"]];
             exitCode := exitCode s; requests := requests s;
             ingressCalls := ingressCalls s; ingressPosts := ingressPosts s;
             uncaught := uncaught s |}
      else if existingFunction items (funcs op) && Options.force opts then
        let sub := Submitter.redeployFunctionAndWait (funcs op)
                     (connNamespace op) (Options.verbose opts) (now env)
                     (exitCode s) (submitErr env) (podResponses env) in
        afterDeployment total opts h op env true (Submitter.outcome sub)
          (afterSubmission sub s)
      else
        let sub := Submitter.deployFunctionAndWait (funcs op)
                     (connNamespace op) (Options.verbose opts) (now env)
                     (exitCode s) (submitErr env) (podResponses env) in
        afterDeployment total opts h op env false (Submitter.outcome sub)
          (afterSubmission sub s)
  end.

(** The state when the executor returns. *)
Definition started (sch : Scheduled) : State :=
  {| errors := [];
     counter := 0;
     outcome := match thrown sch with
                | Some e => reject e Pending
                | None => Pending
                end;
     logged := skipped sch;
     exitCode := None;
     requests := [];
     ingressCalls := [];
     ingressPosts := [];
     uncaught := None |}.

(** [deploy(functions, runtime, options)], observed after the operations
    listed in [completions] have run their callbacks, in that order; an
    operation is named by its position in the schedule.  Nothing runs
    after an exception has escaped a callback. *)
Definition deploy (h : Helpers) (functions : list Description.t)
    (runtime : string) (opts : Options.t) (completions : list (nat * OpEnv))
    : State :=
  let sch := schedule h runtime opts functions in
  let total := Z.of_nat (List.length functions) in
  fold_left
    (fun s c =>
       match uncaught s, nth_error (ops sch) (fst c) with
       | None, Some op => onFunctionsInfo total opts h op (snd c) s
       | _, _ => s
       end)
    completions (started sch).

End Batch.

(** ** Sample clusters used in the concrete statements *)

Module Sample.
Import Poller.

(** A pod of function [hello], created at second 5, with one container. *)
Definition pod (isReady : bool) (restarts : Z) : Pod :=
  {| labels := Some {| function := Some "hello" |};
     creationTimestamp := 5000;
     containerStatuses :=
       Some [{| ready := isReady; restartCount := restarts; state := None |}] |}.

(** A pod of function [hello] whose status has no container statuses yet. *)
Definition barePod : Pod :=
  {| labels := Some {| function := Some "hello" |};
     creationTimestamp := 5000;
     containerStatuses := None |}.

Definition allReady : PodsResponse := PodsOk [pod true 0].
Definition notReady : PodsResponse := PodsOk [pod false 0].
Definition crashLoop : PodsResponse := PodsOk [pod false 3; pod true 0].
Definition noPods : PodsResponse := PodsOk [].
Definition onlyBare : PodsResponse := PodsOk [barePod].

(** The collaborators of a cluster at [1.2.3.4] whose configuration names
    the namespace [default]. *)
Definition helpers : Batch.Helpers :=
  {| Batch.connectionNamespace :=
       fun ns => match ns with Some n => n | None => "default" end;
     Batch.apiHostname := "1.2.3.4" |}.

Definition options : Options.t :=
  {| Options.hostname := None; Options.namespace := None;
     Options.memorySize := None; Options.force := false;
     Options.verbose := false |}.

Definition httpEvent (path : string) : Event.t :=
  {| Event.type := "http"; Event.path := Some path;
     Event.hostname := None; Event.trigger := None |}.

(** The descriptor of function [hello] with the given handler and events. *)
Definition hello (handler : option string) (events : list Event.t)
    : Description.t :=
  {| Description.id := "hello";
     Description.handler := handler;
     Description.deps := None;
     Description.text := "def hello(): pass";
     Description.description := None;
     Description.labels := None;
     Description.environment := None;
     Description.memorySize := None;
     Description.namespace := None;
     Description.events := events |}.

(** The manifest built for [hello] with its default event. *)
Definition helloManifest : Manifest.FunctionManifest :=
  {| Manifest.apiVersion := "k8s.io/v1";
     Manifest.kind := "Function";
     Manifest.name := "hello";
     Manifest.namespace := "default";
     Manifest.annotations := None;
     Manifest.labels := None;
     Manifest.spec :=
       {| Manifest.deps := EmptyString;
          Manifest.function := "def hello(): pass";
          Manifest.handler := "h.hello";
          Manifest.runtime := "python2.7";
          Manifest.template := None;
          Manifest.type := "HTTP";
          Manifest.topic := None |} |}.

(** The operation scheduled for [hello] and its event on path [/foo]. *)
Definition helloOp : Batch.Op :=
  {| Batch.opDescription := hello (Some "h.hello") [httpEvent "/foo"];
     Batch.opEvent := httpEvent "/foo";
     Batch.funcs := helloManifest;
     Batch.connNamespace := "default" |}.

(** A cluster without functions that accepts the submission at instant
    5700, shows one ready pod on each listing and answers the ingress POST
    with [ingressErr]. *)
Definition healthy (ingressErr : option ApiError) : Batch.OpEnv :=
  {| Batch.listing := Batch.ListOk [];
     Batch.now := 5700;
     Batch.submitErr := None;
     Batch.podResponses := [allReady; allReady];
     Batch.ingressErr := ingressErr |}.

(** The same cluster when the POST of the function is refused. *)
Definition refusing (err : ApiError) : Batch.OpEnv :=
  {| Batch.listing := Batch.ListOk [];
     Batch.now := 5700;
     Batch.submitErr := Some err;
     Batch.podResponses := [];
     Batch.ingressErr := None |}.

End Sample.


(** ** Observations on a pod listing, used to state what a tick saw *)

Module Observation.
Import Poller.

(** The first container of the pod reports ready. *)
Definition firstReady (pod : Pod) : bool :=
  match containerStatuses pod with
  | Some (first :: _) => ready first
  | _ => false
  end.

(** The filter runs through the listing, which holds pods of the function,
    and each of them is ready. *)
Definition fullyReady (funcName : string) (requestMoment : Z)
    (resp : PodsResponse) : bool :=
  match resp with
  | PodsOk items =>
      match functionPodsOf funcName requestMoment items with
      | Ok (pod :: pods) => forallb firstReady (pod :: pods)
      | _ => false
      end
  | PodsError _ => false
  end.

(** The pod makes the inspection neither throw nor report a crash loop. *)
Definition calm (pod : Pod) : bool :=
  match containerStatuses pod with
  | None => true
  | Some [] => false
  | Some (first :: _) => ready first || (restartCount first <=? 2)
  end.


(** The filter runs through the listing, which holds calm pods of the
    function, not all of them ready. *)
Definition waiting (funcName : string) (requestMoment : Z)
    (resp : PodsResponse) : bool :=
  match resp with
  | PodsOk items =>
      match functionPodsOf funcName requestMoment items with
      | Ok (pod :: pods) =>
          forallb calm (pod :: pods) && negb (forallb firstReady (pod :: pods))
      | _ => false
      end
  | PodsError _ => false
  end.

End Observation.

(** ** The operations a batch is expected to schedule *)

Module Plan.

(** An event the manifest builder accepts: [http], or [trigger] with a
    topic. *)
Definition supported (e : Event.t) : bool :=
  String.eqb (Event.type e) "http" ||
  (String.eqb (Event.type e) "trigger" && negb (isEmptyStr (Event.trigger e))).

(** The events a descriptor is deployed for. *)
Definition eventsOf (d : Description.t) : list Event.t :=
  match Description.events d with
  | [] => Batch.defaultEvents
  | _ :: _ => Description.events d
  end.

Definition hasHandler (d : Description.t) : bool :=
  truthyStr (Description.handler d).

(** One operation per event of each descriptor that has a handler. *)
Definition operations (functions : list Description.t) : nat :=
  list_sum (map (fun d => if hasHandler d then List.length (eventsOf d) else 0%nat)
              functions).

(** Every event of every descriptor with a handler is supported. *)
Definition deployable (functions : list Description.t) : bool :=
  forallb (fun d => negb (hasHandler d) || forallb supported (eventsOf d))
    functions.

(** The line logged for a descriptor without handler. *)
Definition skipLine (d : Description.t) : string :=
  tpl ["Skipping deployment of "; Description.id d;
       " since it doesn't have a handler"].

(** The descriptor and event of every operation expected, in the order
    of the two loops. *)
Definition planned (functions : list Description.t)
    : list (Description.t * Event.t) :=
  flat_map (fun d => if hasHandler d then map (pair d) (eventsOf d) else [])
    functions.

(** The namespace the client of descriptor [d] works in. *)
Definition namespaceOf (h : Batch.Helpers) (opts : Options.t)
    (d : Description.t) : string :=
  Batch.connectionNamespace h
    (orElse (Description.namespace d) (Options.namespace opts)).

(** The manifest the executor builds for descriptor [d] and event [e]. *)
Definition manifestOf (h : Batch.Helpers) (runtime : string) (opts : Options.t)
    (d : Description.t) (e : Event.t) : Result Manifest.FunctionManifest :=
  Manifest.getFunctionDescription (Description.id d) (namespaceOf h opts d)
    runtime (Description.deps d) (Description.text d) (Batch.handlerText d)
    (Description.description d) (Description.labels d)
    (Description.environment d)
    (orElseSize (Description.memorySize d) (Options.memorySize opts))
    (Event.type e) (Event.trigger e).

(** The operation is the one the executor builds for [d] and [e]. *)
Definition builtFor (h : Batch.Helpers) (runtime : string) (opts : Options.t)
    (d : Description.t) (e : Event.t) (op : Batch.Op) : Prop :=
  Batch.opDescription op = d /\ Batch.opEvent op = e /\
  manifestOf h runtime opts d e = Ok (Batch.funcs op) /\
  Batch.connNamespace op = namespaceOf h opts d.

End Plan.

(** ** What the chain of one operation does to the shared state *)

Module Effect.
Import Batch.

(** The promise after the counter reached [counter]: settled from the
    error list when that is the expected total. *)
Definition settlement (total : Z) (errors : list Reason) (counter : Z)
    (before : Promise unit) : Promise unit :=
  if counter =? total then
    match errors with
    | [] => resolve tt before
    | _ :: _ => reject (aggregate errors) before
    end
  else before.

(** From [s] to [s']: at most one error is appended, and either nothing
    is counted and the promise is left alone, or one operation is counted
    and the promise is settled if the total is reached. *)
Definition chainEffect (total : Z) (s s' : State) : Prop :=
  exists new,
    errors s' = errors s ++ new /\ (List.length new <= 1)%nat /\
    ((counter s' = counter s /\ outcome s' = outcome s) \/
     (counter s' = counter s + 1 /\
      outcome s' = settlement total (errors s') (counter s') (outcome s))).

(** One step of [deploy]: the callbacks of the completion [c]. *)
Definition step (h : Helpers) (functions : list Description.t) (runtime : string)
    (opts : Options.t) (s : State) (c : nat * OpEnv) : State :=
  match uncaught s, nth_error (ops (schedule h runtime opts functions)) (fst c) with
  | None, Some op =>
      onFunctionsInfo (Z.of_nat (List.length functions)) opts h op (snd c) s
  | _, _ => s
  end.

End Effect.

(** ** Sample listings of existing functions *)

Module SampleListing.
Import Manifest Batch Sample.

(** An item that holds [hello] as the sample manifest describes it. *)
Definition listed : Existing :=
  {| itemName := "hello"; itemSpec := spec helloManifest |}.

(** An item that holds [hello] with another handler. *)
Definition changed : Existing :=
  {| itemName := "hello";
     itemSpec := {| deps := EmptyString; function := "def hello(): pass";
                    handler := "h.other"; runtime := "python2.7";
                    template := None; type := "HTTP"; topic := None |} |}.

(** A cluster that lists [items], answers the submission at instant 5700
    with [err] and shows one ready pod on each listing of the poll. *)
Definition answering (items : list Existing) (err : option ApiError) : OpEnv :=
  {| listing := ListOk items; now := 5700; submitErr := err;
     podResponses := [allReady; allReady]; ingressErr := None |}.

End SampleListing.
(** * Properties of the readiness poller *)

Section PollerFacts.
Import Poller.

Variables (funcName : string) (requestMoment : Z) (verbose : bool).

Ltac run_monad :=
  unfold log, clearInterval, settle, setRetries, setSuccessfulCount,
    setPreviousPodStatus, failExitCode, bind, ret, throw, gets, modify in *;
  cbn [fst snd retries successfulCount previousPodStatus loop promise logged
       exitCode] in *.

(** Inspecting the pods writes neither counter, nor the snapshot, nor the
    promise; it can only disarm the timer. *)
Lemma eachPod_frame (pods : list Pod) :
  forall n s,
    let s' := snd (eachPod pods n s) in
    retries s' = retries s /\ successfulCount s' = successfulCount s /\
    previousPodStatus s' = previousPodStatus s /\ promise s' = promise s /\
    (loop s = false -> loop s' = false).
Proof.
  induction pods as [|pod rest IH]; intros n s; cbn.
  - repeat split; auto.
  - unfold bind at 1. unfold inspectPod.
    destruct (containerStatuses pod) as [[|first others]|].
    + cbn. repeat split; auto.
    + destruct (ready first).
      * apply IH.
      * destruct (restartCount first >? 2).
        -- run_monad.
           match goal with |- context [eachPod rest n ?t] =>
             destruct (IH n t) as (H1 & H2 & H3 & H4 & H5) end.
           cbn in *. repeat split; auto.
        -- apply IH.
    + apply IH.
Qed.

(** Building the status snapshot leaves the state alone. *)
Lemma mapPodStatus_state (pods : list Pod) :
  forall s, snd (mapPodStatus pods s) = s.
Proof.
  induction pods as [|pod rest IH]; intros s; cbn.
  - reflexivity.
  - unfold bind at 1. unfold podStatusOf.
    destruct (containerStatuses pod) as [[|first others]|]; cbn; try reflexivity.
    + unfold bind. specialize (IH s). destruct (mapPodStatus rest s) as [[xs|e] t];
        cbn in *; assumption.
    + unfold bind. specialize (IH s). destruct (mapPodStatus rest s) as [[xs|e] t];
        cbn in *; assumption.
Qed.

(** The callback of the pod listing never rejects the promise: it leaves
    it alone or resolves it. *)
Lemma onPods_promise (resp : PodsResponse) (s : PollState) r s' :
  onPods funcName requestMoment verbose resp s = (r, s') ->
  promise s' = promise s \/ promise s' = resolve tt (promise s).
Proof.
  unfold onPods. destruct resp as [msg|items]; cbv beta iota zeta.
  - destruct (includes _ msg); cbn; intros [= <- <-]; auto.
  - unfold bind at 1. unfold liftResult.
    destruct (functionPodsOf funcName requestMoment items) as [[|p ps]|err] eqn:E;
      cbv beta iota.
    + cbn. intros [= <- <-]; auto.
    + unfold bind at 1.
      pose proof (eachPod_frame (p :: ps) 0 s) as F. cbv zeta in F.
      destruct (eachPod (p :: ps) 0 s) as [[n|e] t]; cbn [snd] in *;
        destruct F as (F1 & F2 & F3 & F4 & F5); [|intros [= <- <-]; auto].
      destruct (n =? _).
      * run_monad. destruct (successfulCount t + 1 =? 2); cbn;
          intros [= <- <-]; cbn; rewrite F4; auto.
      * destruct verbose; [|cbn; intros [= <- <-]; auto].
        unfold bind at 1. unfold setSuccessfulCount at 1. unfold modify at 1.
        unfold bind at 1.
        match goal with |- context [mapPodStatus (p :: ps) ?u] =>
          pose proof (mapPodStatus_state (p :: ps) u) as G;
          destruct (mapPodStatus (p :: ps) u) as [[xs|e] v] end;
          cbn [snd] in *; subst v; [|cbn; intros [= <- <-]; auto].
        run_monad. destruct (negb _); cbn; intros [= <- <-]; auto.
    + intros [= <- <-]; auto.
Qed.

(** The counter [retries] moves only on a response without matching pod. *)
Lemma onPods_retries (resp : PodsResponse) (s : PollState) :
  retries (snd (onPods funcName requestMoment verbose resp s)) =
  if noMatchingPod funcName requestMoment resp then retries s + 1 else retries s.
Proof.
  unfold onPods, Poller.noMatchingPod. destruct resp as [msg|items]; cbv beta iota zeta.
  - destruct (includes _ msg); cbn; auto.
  - unfold bind at 1. unfold liftResult.
    destruct (functionPodsOf funcName requestMoment items) as [[|p ps]|err] eqn:E;
      cbv beta iota.
    + cbn. reflexivity.
    + unfold bind at 1.
      pose proof (eachPod_frame (p :: ps) 0 s) as F. cbv zeta in F.
      destruct (eachPod (p :: ps) 0 s) as [[n|e] t]; cbn [snd] in *;
        destruct F as (F1 & F2 & F3 & F4 & F5); [|auto].
      destruct (n =? _).
      * run_monad. destruct (successfulCount t + 1 =? 2); cbn; auto.
      * destruct verbose; [|cbn; auto].
        unfold bind at 1. unfold setSuccessfulCount at 1. unfold modify at 1.
        unfold bind at 1.
        match goal with |- context [mapPodStatus (p :: ps) ?u] =>
          pose proof (mapPodStatus_state (p :: ps) u) as G;
          destruct (mapPodStatus (p :: ps) u) as [[xs|e] v] end;
          cbn [snd] in *; subst v; [|cbn; auto].
        run_monad. destruct (negb _); cbn; auto.
    + reflexivity.
Qed.

(** The start of a tick: the give-up test. *)
Lemma tick_unfold (resp : PodsResponse) (s : PollState) :
  tick funcName requestMoment verbose resp s =
  onPods funcName requestMoment verbose resp
    (if retries s >? 3 then
       {| retries := retries s; successfulCount := successfulCount s;
          previousPodStatus := previousPodStatus s; loop := false;
          promise := reject (timeoutReason funcName) (promise s);
          logged := logged s ++
            [tpl ["Giving up, unable to retrieve the status of the "; funcName;
                  " deployment. "]];
          exitCode := exitCode s |}
     else s).
Proof.
  unfold tick. unfold bind at 1. unfold gets at 1.
  destruct (retries s >? 3); reflexivity.
Qed.

Lemma tick_retries (resp : PodsResponse) (s : PollState) :
  retries (snd (tick funcName requestMoment verbose resp s)) =
  if noMatchingPod funcName requestMoment resp then retries s + 1 else retries s.
Proof.
  rewrite tick_unfold, onPods_retries.
  destruct (retries s >? 3); reflexivity.
Qed.

(** A disarmed timer stays disarmed through the callback. *)
Lemma onPods_loop (resp : PodsResponse) (s : PollState) r s' :
  onPods funcName requestMoment verbose resp s = (r, s') ->
  loop s = false -> loop s' = false.
Proof.
  unfold onPods. destruct resp as [msg|items]; cbv beta iota zeta.
  - destruct (includes _ msg); cbn; intros [= <- <-]; auto.
  - unfold bind at 1. unfold liftResult.
    destruct (functionPodsOf funcName requestMoment items) as [[|p ps]|err] eqn:E;
      cbv beta iota.
    + cbn. intros [= <- <-]; auto.
    + unfold bind at 1.
      pose proof (eachPod_frame (p :: ps) 0 s) as F. cbv zeta in F.
      destruct (eachPod (p :: ps) 0 s) as [[n|e] t]; cbn [snd] in *;
        destruct F as (F1 & F2 & F3 & F4 & F5); [|intros [= <- <-]; auto].
      destruct (n =? _).
      * run_monad. destruct (successfulCount t + 1 =? 2); cbn;
          intros [= <- <-]; cbn; auto.
      * destruct verbose; [|cbn; intros [= <- <-]; auto].
        unfold bind at 1. unfold setSuccessfulCount at 1. unfold modify at 1.
        unfold bind at 1.
        match goal with |- context [mapPodStatus (p :: ps) ?u] =>
          pose proof (mapPodStatus_state (p :: ps) u) as G;
          destruct (mapPodStatus (p :: ps) u) as [[xs|e] v] end;
          cbn [snd] in *; subst v; [|cbn; intros [= <- <-]; auto].
        run_monad. destruct (negb _); cbn; intros [= <- <-]; auto.
    + intros [= <- <-]; auto.
Qed.

(** A tick without matching pod, below the give-up limit. *)
Lemma tick_noMatchingPod (resp : PodsResponse) (s : PollState) :
  noMatchingPod funcName requestMoment resp = true -> retries s <= 3 ->
  tick funcName requestMoment verbose resp s =
  (Ok tt,
   {| retries := retries s + 1; successfulCount := successfulCount s;
      previousPodStatus := previousPodStatus s; loop := loop s;
      promise := promise s;
      logged := logged s ++
        [tpl ["Unable to find any running pod for "; funcName; ". Retrying..."]];
      exitCode := exitCode s |}).
Proof.
  intros He Hr. rewrite tick_unfold.
  destruct (Z.gtb_spec (retries s) 3) as [|_]; [lia|].
  unfold Poller.noMatchingPod in He. unfold onPods.
  destruct resp as [msg|items]; [discriminate|].
  unfold bind at 1. unfold liftResult.
  destruct (functionPodsOf funcName requestMoment items) as [[|p ps]|err];
    try discriminate.
  reflexivity.
Qed.

(** Any tick that starts above the limit rejects a pending promise with
    the timeout reason and disarms the timer, whatever the cluster
    answers. *)
Lemma tick_gives_up (resp : PodsResponse) (s : PollState) r s' :
  tick funcName requestMoment verbose resp s = (r, s') ->
  3 < retries s -> promise s = Pending ->
  promise s' = Rejected (timeoutReason funcName) /\ loop s' = false.
Proof.
  rewrite tick_unfold. intros H Hr Hp.
  destruct (Z.gtb_spec (retries s) 3) as [_|]; [|lia].
  split.
  - destruct (onPods_promise _ _ _ _ H) as [E|E]; rewrite E; cbn; rewrite Hp;
      reflexivity.
  - apply (onPods_loop _ _ _ _ H). reflexivity.
Qed.

(** Once the timer is disarmed no tick fires. *)
Lemma run_stopped (responses : list PodsResponse) (s : PollState) :
  loop s = false -> run funcName requestMoment verbose responses s = (Ok tt, s).
Proof.
  intros H. destruct responses; cbn [run]; [|rewrite H]; reflexivity.
Qed.

Lemma run_app (l more : list PodsResponse) :
  forall s,
    run funcName requestMoment verbose (l ++ more) s =
    match run funcName requestMoment verbose l s with
    | (Ok _, s') => run funcName requestMoment verbose more s'
    | (Throw e, s') => (Throw e, s')
    end.
Proof.
  induction l as [|resp l IH]; intros s; cbn [app run].
  - destruct (run funcName requestMoment verbose more s) as [[[]|e] t]; reflexivity.
  - destruct (loop s) eqn:L.
    + destruct (tick funcName requestMoment verbose resp s) as [[u|e] t].
      * apply IH.
      * reflexivity.
    + rewrite run_stopped by assumption. reflexivity.
Qed.

(** A run of responses without matching pod either is still polling,
    with one retry counted per response, or has given up on the way. *)
Lemma run_noMatchingPod (es : list PodsResponse) :
  Forall (fun e => noMatchingPod funcName requestMoment e = true) es ->
  forall s, loop s = true -> promise s = Pending ->
    let out := run funcName requestMoment verbose es s in
    fst out = Ok tt /\
    ((promise (snd out) = Rejected (timeoutReason funcName) /\
      loop (snd out) = false) \/
     (promise (snd out) = Pending /\ loop (snd out) = true /\
      retries (snd out) = retries s + Z.of_nat (List.length es))).
Proof.
  induction 1 as [|e es He Hes IH]; intros s L P.
  - cbn. split; [reflexivity|]. right. repeat split; auto. lia.
  - cbn [run]. rewrite L.
    destruct (Z_le_gt_dec (retries s) 3) as [Hle|Hgt].
    + rewrite tick_noMatchingPod by assumption.
      match goal with |- context [run _ _ _ es ?t] =>
        destruct (IH t L P) as [I1 [I2|I2]] end.
      * split; [assumption|]. left. assumption.
      * split; [assumption|]. right. cbn [retries] in I2.
        destruct I2 as (I2 & I3 & I4). repeat split; auto.
        rewrite I4. cbn [List.length]. lia.
    + destruct (tick funcName requestMoment verbose e s) as [r t] eqn:T.
      assert (G := tick_gives_up _ _ _ _ T ltac:(lia) P).
      assert (R : fst (tick funcName requestMoment verbose e s) = Ok tt).
      { rewrite tick_unfold. unfold Poller.noMatchingPod in He. unfold onPods.
        destruct e as [msg|items]; [discriminate|].
        unfold bind at 1. unfold liftResult.
        destruct (functionPodsOf funcName requestMoment items) as [[|p ps]|err];
          try discriminate.
        reflexivity. }
      rewrite T in R. cbn in R. subst r.
      rewrite run_stopped by apply G. split; [reflexivity|]. left. exact G.
Qed.

(** While the count stays within the limit, listings without matching
    pod only count retries: the poll keeps its promise and its timer. *)
Lemma run_noMatchingPod_polling (es : list PodsResponse) :
  Forall (fun e => noMatchingPod funcName requestMoment e = true) es ->
  forall s, loop s = true ->
    retries s + Z.of_nat (List.length es) <= 4 ->
    let out := run funcName requestMoment verbose es s in
    fst out = Ok tt /\ promise (snd out) = promise s /\
    loop (snd out) = true /\
    retries (snd out) = retries s + Z.of_nat (List.length es).
Proof.
  induction 1 as [|e es He Hes IH]; intros s L B.
  - cbn. repeat split; auto. lia.
  - cbn [run]. rewrite L.
    cbn [List.length] in B.
    rewrite tick_noMatchingPod by (assumption || lia).
    match goal with |- context [run _ _ _ es ?t] =>
      destruct (IH t L) as (I1 & I2 & I3 & I4) end.
    { cbn [retries]. lia. }
    cbn [retries promise] in I2, I4. repeat split; auto.
    rewrite I4. cbn [List.length]. lia.
Qed.

(** Four listings without matching pod, then any listing: the poll has
    been rejected with the timeout and its timer disarmed. *)
Lemma run_times_out (s : PollState) (e1 e2 e3 e4 r5 : PodsResponse) :
  loop s = true -> promise s = Pending -> 0 <= retries s ->
  noMatchingPod funcName requestMoment e1 = true ->
  noMatchingPod funcName requestMoment e2 = true ->
  noMatchingPod funcName requestMoment e3 = true ->
  noMatchingPod funcName requestMoment e4 = true ->
  let out := run funcName requestMoment verbose [e1; e2; e3; e4; r5] s in
  promise (snd out) = Rejected (timeoutReason funcName) /\
  loop (snd out) = false.
Proof.
  intros L P Hr H1 H2 H3 H4 out. subst out.
  change [e1; e2; e3; e4; r5] with ([e1; e2; e3; e4] ++ [r5]).
  rewrite run_app.
  assert (F : Forall (fun e => noMatchingPod funcName requestMoment e = true)
                [e1; e2; e3; e4]) by (repeat constructor; assumption).
  pose proof (run_noMatchingPod _ F s L P) as R.
  cbv zeta in R.
  destruct (run funcName requestMoment verbose [e1; e2; e3; e4] s) as [r t].
  cbn [fst snd] in R. destruct R as [-> [G|(G1 & G2 & G3)]].
  - rewrite run_stopped by apply G. exact G.
  - cbn [run]. rewrite G2.
    destruct (tick funcName requestMoment verbose r5 t) as [[u|e] t'] eqn:T;
      cbn [snd]; apply (tick_gives_up _ _ _ _ T); auto;
      cbn [List.length] in G3; lia.
Qed.

(** The poll has one rejection reason only: the timeout. *)
Lemma tick_rejection_is_timeout (resp : PodsResponse) (s : PollState) r s' e :
  tick funcName requestMoment verbose resp s = (r, s') ->
  promise s = Pending -> promise s' = Rejected e ->
  e = timeoutReason funcName /\ 3 < retries s.
Proof.
  rewrite tick_unfold. intros H P R.
  destruct (Z.gtb_spec (retries s) 3) as [Hgt|Hle].
  - destruct (onPods_promise _ _ _ _ H) as [E|E]; rewrite E in R; cbn in R;
      rewrite P in R; cbn in R; injection R as <-; (split; [reflexivity|lia]).
  - destruct (onPods_promise _ _ _ _ H) as [E|E]; rewrite E, P in R;
      discriminate R.
Qed.

(** Pods without container statuses are skipped by the inspection ... *)
Lemma eachPod_bare (pods : list Pod) :
  Forall (fun pod => containerStatuses pod = None) pods ->
  forall n s, eachPod pods n s = (Ok n, s).
Proof.
  induction 1 as [|pod rest Hp _ IH]; intros n s; cbn [eachPod].
  - reflexivity.
  - unfold bind, inspectPod. rewrite Hp. unfold ret at 1. apply IH.
Qed.

(** ... and reported as [unknown] in the snapshot. *)
Lemma mapPodStatus_bare (pods : list Pod) :
  Forall (fun pod => containerStatuses pod = None) pods ->
  forall s, mapPodStatus pods s = (Ok (map (fun _ => Some "unknown") pods), s).
Proof.
  induction 1 as [|pod rest Hp _ IH]; intros s; cbn [mapPodStatus map].
  - reflexivity.
  - unfold bind, podStatusOf. rewrite Hp. unfold ret at 1. rewrite IH.
    reflexivity.
Qed.

End PollerFacts.

Section PollerInspection.
Import Poller Observation.

Variables (funcName : string) (requestMoment : Z) (verbose : bool).

Ltac step_poll :=
  unfold log, clearInterval, settle, setRetries, setSuccessfulCount,
    setPreviousPodStatus, failExitCode, bind, ret, throw, gets, modify in *;
  cbn [fst snd retries successfulCount previousPodStatus loop promise logged
       exitCode] in *.

(** The inspection counts the pods whose first container is ready. *)
Lemma eachPod_running (pods : list Pod) :
  forall n s m t,
    eachPod pods n s = (Ok m, t) ->
    m = n + Z.of_nat (List.length (filter firstReady pods)).
Proof.
  induction pods as [|pod rest IH]; intros n s m t; cbn [eachPod filter].
  - unfold ret. intros [= <- <-]. cbn. lia.
  - unfold bind at 1. unfold inspectPod.
    change (firstReady pod) with
      (match containerStatuses pod with
       | Some (first :: _) => ready first
       | _ => false
       end).
    destruct (containerStatuses pod) as [[|first others]|].
    + unfold throw. discriminate.
    + destruct (ready first).
      * unfold ret at 1. intros H. apply IH in H. cbn [List.length].
        rewrite Nat2Z.inj_succ. lia.
      * destruct (restartCount first >? 2).
        -- step_poll. intros H. apply IH in H. exact H.
        -- unfold ret at 1. intros H. apply IH in H. exact H.
    + unfold ret at 1. intros H. apply IH in H. exact H.
Qed.

Lemma eachPod_ready (pods : list Pod) :
  forallb firstReady pods = true ->
  forall n s, eachPod pods n s = (Ok (n + Z.of_nat (List.length pods)), s).
Proof.
  induction pods as [|pod rest IH]; intros H n s; cbn [eachPod].
  - unfold ret. cbn. f_equal. f_equal. lia.
  - cbn [forallb] in H. apply andb_prop in H. destruct H as [Hp Hr].
    unfold bind at 1. unfold inspectPod. unfold firstReady in Hp.
    destruct (containerStatuses pod) as [[|first others]|]; try discriminate.
    rewrite Hp. unfold ret at 1. rewrite (IH Hr). cbn [List.length].
    f_equal. f_equal. lia.
Qed.

Lemma filter_all {A} (f : A -> bool) (l : list A) :
  List.length (filter f l) = List.length l -> forallb f l = true.
Proof.
  induction l as [|x l IH]; cbn; [reflexivity|].
  pose proof (filter_length_le f l) as B.
  destruct (f x); cbn; intros E; [apply IH; lia|lia].
Qed.

(** A tick below the give-up limit that sees every pod ready counts one
    stable observation and resolves on the second. *)
Lemma tick_fullyReady (resp : PodsResponse) (s : PollState) :
  fullyReady funcName requestMoment resp = true -> retries s <= 3 ->
  tick funcName requestMoment verbose resp s =
  (Ok tt,
   if successfulCount s + 1 =? 2 then
     {| retries := retries s; successfulCount := successfulCount s + 1;
        previousPodStatus := previousPodStatus s; loop := false;
        promise := resolve tt (promise s);
        logged := logged s ++
          [tpl ["Function "; funcName; " succesfully deployed"]];
        exitCode := exitCode s |}
   else
     {| retries := retries s; successfulCount := successfulCount s + 1;
        previousPodStatus := previousPodStatus s; loop := loop s;
        promise := promise s; logged := logged s; exitCode := exitCode s |}).
Proof.
  intros F Hr. rewrite tick_unfold.
  destruct (Z.gtb_spec (retries s) 3) as [|_]; [lia|].
  unfold fullyReady in F. unfold onPods.
  destruct resp as [msg|items]; [discriminate|].
  unfold bind at 1. unfold liftResult.
  destruct (functionPodsOf funcName requestMoment items) as [[|p ps]|err];
    try discriminate. cbv beta iota.
  unfold bind at 1. rewrite (eachPod_ready _ F).
  rewrite Z.add_0_l, Z.eqb_refl.
  step_poll. destruct (successfulCount s + 1 =? 2); reflexivity.
Qed.

(** Two fully ready ticks from a poll without stable observation. *)
Lemma run_two_ready :
  forall (s : PollState) (r1 r2 : PodsResponse) (more : list PodsResponse),
    loop s = true -> promise s = Pending -> retries s <= 3 ->
    successfulCount s = 0 ->
    fullyReady funcName requestMoment r1 = true ->
    fullyReady funcName requestMoment r2 = true ->
    run funcName requestMoment verbose (r1 :: r2 :: more) s =
    (Ok tt,
     {| retries := retries s; successfulCount := 2;
        previousPodStatus := previousPodStatus s; loop := false;
        promise := Fulfilled tt;
        logged := logged s ++
          [tpl ["Function "; funcName; " succesfully deployed"]];
        exitCode := exitCode s |}).
Proof.
  intros s r1 r2 more L P Hr Hc F1 F2.
  cbn [run]. rewrite L. rewrite (tick_fullyReady _ _ F1 Hr).
  rewrite Hc. cbn [Z.add Z.eqb Pos.eqb loop].
  rewrite L. rewrite tick_fullyReady by (assumption || (cbn; assumption)).
  cbn [successfulCount Z.add Pos.add Z.eqb Pos.eqb retries previousPodStatus
       promise logged exitCode].
  rewrite P. rewrite run_stopped by reflexivity. reflexivity.
Qed.

(** The callback resolves a pending promise only on a listing whose pods
    are all ready, when the second stable observation is counted. *)
Lemma onPods_fulfils (resp : PodsResponse) (s : PollState) r s' v :
  onPods funcName requestMoment verbose resp s = (r, s') ->
  promise s = Pending -> promise s' = Fulfilled v ->
  fullyReady funcName requestMoment resp = true /\
  successfulCount s' = 2 /\ loop s' = false.
Proof.
  unfold onPods, fullyReady. destruct resp as [msg|items]; cbv beta iota zeta.
  - destruct (includes _ msg); cbn; intros [= <- <-]; cbn; intros P Q;
      rewrite P in Q; discriminate Q.
  - unfold bind at 1. unfold liftResult.
    destruct (functionPodsOf funcName requestMoment items) as [[|p ps]|err] eqn:E;
      cbv beta iota.
    + cbn. intros [= <- <-]; cbn; intros P Q; rewrite P in Q; discriminate Q.
    + unfold bind at 1.
      pose proof (eachPod_frame (p :: ps) 0 s) as F. cbv zeta in F.
      destruct (eachPod (p :: ps) 0 s) as [[n|e] t] eqn:Each; cbn [snd] in *;
        destruct F as (F1 & F2 & F3 & F4 & F5);
        [|intros [= <- <-]; intros P Q; rewrite F4, P in Q; discriminate Q].
      destruct (Z.eqb_spec n (Z.of_nat (List.length (p :: ps)))) as [Hn|Hn].
      * apply eachPod_running in Each.
        assert (A : forallb firstReady (p :: ps) = true)
          by (apply filter_all; lia).
        step_poll.
        destruct (Z.eqb_spec (successfulCount t + 1) 2) as [H2|H2]; cbn;
          intros [= <- <-]; cbn; intros P Q;
          [auto|rewrite F4, P in Q; discriminate Q].
      * destruct verbose;
          [|cbn; intros [= <- <-]; intros P Q; rewrite F4, P in Q;
            discriminate Q].
        unfold bind at 1. unfold setSuccessfulCount at 1. unfold modify at 1.
        unfold bind at 1.
        match goal with |- context [mapPodStatus (p :: ps) ?u] =>
          pose proof (mapPodStatus_state (p :: ps) u) as G;
          destruct (mapPodStatus (p :: ps) u) as [[xs|e] w] end;
          cbn [snd] in *; subst w;
          [|cbn; intros [= <- <-]; cbn; intros P Q; rewrite F4, P in Q;
            discriminate Q].
        step_poll. destruct (negb _); cbn; intros [= <- <-]; cbn; intros P Q;
          rewrite F4, P in Q; discriminate Q.
    + intros [= <- <-]; intros P Q; rewrite P in Q; discriminate Q.
Qed.

(** A pod without container statuses is transparent to the inspection:
    taking it out of the inspected pods changes neither the count nor any
    effect. *)
Lemma eachPod_skips_bare (before after : list Pod) (bare : Pod) :
  containerStatuses bare = None ->
  forall n s,
    eachPod (before ++ bare :: after) n s = eachPod (before ++ after) n s.
Proof.
  intros B. induction before as [|pod rest IH]; intros n s; cbn [app eachPod].
  - unfold bind at 1. unfold inspectPod. rewrite B. reflexivity.
  - unfold bind. destruct (inspectPod pod n s) as [[m|e] t]; [apply IH|reflexivity].
Qed.

End PollerInspection.

Section PollerClaims.
Import Poller Sample.

(** C2 (the code departs from the claim).  A tick that sees a pod with
    [ready = false] and [restartCount = 3] next to a ready pod logs the
    error, sets a failing exit code and disarms the timer, but the promise
    of the poll is left pending: it is rejected with no crash-loop error,
    on this tick or on any later response. *)
Theorem crash_loop_leaves_promise_pending :
  forall (verbose : bool) (later : list PodsResponse),
    let out := waitForDeployment "hello" 5000 "default" verbose None
                 (crashLoop :: later) in
    fst out = Ok tt /\
    loop (snd out) = false /\
    promise (snd out) = Pending /\
    exitCode (snd out) = Some 1 /\
    In "ERROR: Failed to deploy the function" (logged (snd out)).
Proof.
  intros verbose later. unfold waitForDeployment.
  change (crashLoop :: later) with ([crashLoop] ++ later).
  rewrite run_app.
  remember (run "hello" 5000 verbose [crashLoop] (initial None)) as first eqn:E.
  destruct verbose; vm_compute in E; subst first;
    (rewrite run_stopped by reflexivity); cbn; intuition.
Qed.

(** C3 (the code departs from the claim).  Without the verbose option a
    tick that is not fully ready leaves [successfulCount] at 1, so a ready
    tick, a not-ready tick and a ready tick resolve the poll although no
    two ready ticks were consecutive; with the verbose option the counter
    is reset and the same run is still pending. *)
Theorem quiet_poll_keeps_stability_counter :
  let quiet := waitForDeployment "hello" 5000 "default" false None in
  let chatty := waitForDeployment "hello" 5000 "default" true None in
  successfulCount (snd (quiet [allReady; notReady])) = 1 /\
  promise (snd (quiet [allReady; notReady])) = Pending /\
  promise (snd (quiet [allReady; notReady; allReady])) = Fulfilled tt /\
  successfulCount (snd (chatty [allReady; notReady])) = 0 /\
  promise (snd (chatty [allReady; notReady; allReady])) = Pending.
Proof.
  vm_compute. repeat split; reflexivity.
Qed.

(** C4, as stated, fails: after four consecutive ticks without matching
    pod the promise is still pending and the timer still armed, and a
    fifth tick fires. *)
Lemma four_empty_ticks_still_polling :
  let four := waitForDeployment "hello" 5000 "default" false None
                [noPods; noPods; noPods; noPods] in
  let five := waitForDeployment "hello" 5000 "default" false None
                [noPods; noPods; noPods; noPods; noPods] in
  retries (snd four) = 4 /\
  promise (snd four) = Pending /\
  loop (snd four) = true /\
  promise (snd five) = Rejected (timeoutReason "hello") /\
  ~ (promise (snd four) = Rejected (timeoutReason "hello") /\
     loop (snd four) = false).
Proof.
  vm_compute. repeat split; try reflexivity. intros [H _]. discriminate H.
Qed.

(** C4 (amended).  [retries] grows by one exactly on the ticks whose
    listing holds no matching pod.  The limit is tested at the start of a
    tick: four such ticks in a row leave a poll that had counted no retry
    pending, with its timer armed and [retries] at 4; a pending poll that
    meets four such ticks in a row is rejected with the timeout reason and
    its timer disarmed no later than the tick that follows them, and no
    tick fires after that. *)
Theorem retries_and_timeout :
  forall (funcName : string) (requestMoment : Z) (verbose : bool)
         (s : PollState) (e1 e2 e3 e4 r5 : PodsResponse)
         (more : list PodsResponse),
    loop s = true -> promise s = Pending ->
    noMatchingPod funcName requestMoment e1 = true ->
    noMatchingPod funcName requestMoment e2 = true ->
    noMatchingPod funcName requestMoment e3 = true ->
    noMatchingPod funcName requestMoment e4 = true ->
    (forall resp t,
        retries (snd (tick funcName requestMoment verbose resp t)) =
        if noMatchingPod funcName requestMoment resp
        then retries t + 1 else retries t) /\
    (retries s = 0 ->
     let four := run funcName requestMoment verbose [e1; e2; e3; e4] s in
     promise (snd four) = Pending /\ loop (snd four) = true /\
     retries (snd four) = 4) /\
    (0 <= retries s ->
     let out := run funcName requestMoment verbose [e1; e2; e3; e4; r5] s in
     promise (snd out) = Rejected (timeoutReason funcName) /\
     loop (snd out) = false /\
     run funcName requestMoment verbose ([e1; e2; e3; e4; r5] ++ more) s = out).
Proof.
  intros funcName requestMoment verbose s e1 e2 e3 e4 r5 more L P H1 H2 H3 H4.
  split; [intros; apply tick_retries|].
  split.
  { intros Hz four.
    assert (F : Forall (fun e => noMatchingPod funcName requestMoment e = true)
                  [e1; e2; e3; e4]) by (repeat constructor; assumption).
    destruct (run_noMatchingPod_polling funcName requestMoment verbose _ F s L)
      as (_ & Q1 & Q2 & Q3).
    { rewrite Hz. cbn. lia. }
    fold four in Q1, Q2, Q3. rewrite Q1, Q3, Hz. cbn. auto. }
  intros Hr out.
  pose proof (run_times_out funcName requestMoment verbose s e1 e2 e3 e4 r5
                L P Hr H1 H2 H3 H4) as D.
  cbv zeta in D. fold out in D.
  split; [apply D|]. split; [apply D|].
  rewrite run_app. fold out. destruct out as [[u|e] t]; [|reflexivity].
  cbn [snd] in D. rewrite run_stopped by apply D. destruct u. reflexivity.
Qed.

(** The amended C4 at the start of a poll: five listings without pods. *)
Lemma retries_and_timeout_witness :
  promise (snd (run "hello" 5000 false
                  [noPods; noPods; noPods; noPods; noPods] (initial None))) =
  Rejected (timeoutReason "hello").
Proof.
  apply (proj2 (proj2 (retries_and_timeout "hello" 5000 false (initial None)
                         noPods noPods noPods noPods noPods []
                         eq_refl eq_refl eq_refl eq_refl eq_refl eq_refl))).
  cbn. lia.
Defined.

(** C10, as stated, fails.  With the verbose option a tick on which the
    only matching pod has no container statuses resets [successfulCount]
    from 1 to 0; and such a tick, when it starts with [retries] above 3,
    is the one that rejects the poll. *)
Lemma bare_pod_tick_changes_state :
  let chatty := waitForDeployment "hello" 5000 "default" true None in
  let quiet := waitForDeployment "hello" 5000 "default" false None in
  successfulCount (snd (chatty [allReady])) = 1 /\
  successfulCount (snd (chatty [allReady; onlyBare])) = 0 /\
  promise (snd (quiet [noPods; noPods; noPods; noPods])) = Pending /\
  promise (snd (quiet [noPods; noPods; noPods; noPods; onlyBare])) =
    Rejected (timeoutReason "hello").
Proof.
  vm_compute. repeat split; reflexivity.
Qed.

(** C10 (amended).  A pod whose status has no container statuses counts
    neither as ready nor as crash-looping: taking it out of the inspected
    pods changes nothing in the inspection, and a tick whose matching pods
    hold one never fulfils a pending poll.  On a tick that starts with
    [retries] at most 3 and on which the filtered pod set is non-empty and
    made of such pods only, the poll neither resolves nor rejects, keeps
    its timer and its exit code and counts no retry; with the verbose
    option [successfulCount] is set to 0 and the snapshot of [unknown]
    entries is logged and stored when it differs from the previous one,
    and without it the snapshot and the log are kept. *)
Theorem bare_pods_tick :
  forall (funcName : string) (requestMoment : Z) (verbose : bool),
    (forall (before after : list Pod) (bare : Pod) (n : Z) (s : PollState),
        containerStatuses bare = None ->
        eachPod (before ++ bare :: after) n s = eachPod (before ++ after) n s) /\
    (forall (items pods : list Pod) (bare : Pod) (s s' : PollState)
            (r : Result unit),
        functionPodsOf funcName requestMoment items = Ok pods ->
        In bare pods -> containerStatuses bare = None ->
        tick funcName requestMoment verbose (PodsOk items) s = (r, s') ->
        promise s = Pending -> promise s' <> Fulfilled tt) /\
    (forall (items pods : list Pod) (s : PollState),
        retries s <= 3 ->
        functionPodsOf funcName requestMoment items = Ok pods -> pods <> [] ->
        Forall (fun pod => containerStatuses pod = None) pods ->
        let current := map (fun _ : Pod => Some "unknown") pods in
        let changed := negb (snapshot_isEqual (previousPodStatus s) current) in
        exists s',
          tick funcName requestMoment verbose (PodsOk items) s = (Ok tt, s') /\
          retries s' = retries s /\ loop s' = loop s /\
          promise s' = promise s /\ exitCode s' = exitCode s /\
          (verbose = true ->
             successfulCount s' = 0 /\
             previousPodStatus s' =
               (if changed then SnapList current else previousPodStatus s) /\
             logged s' =
               (if changed
                then logged s ++ [tpl ["Pods status: "; showEntries current]]
                else logged s)) /\
          (verbose = false ->
             previousPodStatus s' = previousPodStatus s /\
             logged s' = logged s)).
Proof.
  intros funcName requestMoment verbose. split; [|split].
  - intros before after bare n s B. apply eachPod_skips_bare. exact B.
  - intros items pods bare s s' r E Hin B T P Q.
    rewrite tick_unfold in T.
    destruct (retries s >? 3).
    + destruct (onPods_promise _ _ _ _ _ _ _ T) as [H|H]; rewrite H in Q;
        cbn in Q; rewrite P in Q; discriminate Q.
    + destruct (onPods_fulfils _ _ _ _ _ _ _ tt T P Q) as (F & _).
      unfold Observation.fullyReady in F. rewrite E in F.
      destruct pods as [|p ps]; [discriminate F|].
      rewrite forallb_forall in F. specialize (F bare Hin).
      unfold Observation.firstReady in F. rewrite B in F. discriminate F.
  - intros items pods s Hr E Hne Hbare current changed.
    rewrite tick_unfold.
    destruct (Z.gtb_spec (retries s) 3) as [|_]; [lia|].
    unfold onPods. unfold bind at 1. unfold liftResult. rewrite E.
    subst changed current.
    destruct pods as [|p ps]; [congruence|]. cbv beta iota.
    unfold bind at 1. rewrite (eachPod_bare _ Hbare).
    replace (0 =? Z.of_nat (List.length (p :: ps))) with false
      by (symmetry; apply Z.eqb_neq; cbn [List.length]; lia).
    destruct verbose.
    + unfold bind at 1. unfold setSuccessfulCount at 1. unfold modify at 1.
      unfold bind at 1. rewrite (mapPodStatus_bare _ Hbare).
      unfold bind at 1. unfold gets at 1.
      cbn [previousPodStatus].
      destruct (negb (snapshot_isEqual (previousPodStatus s)
                  (map (fun _ : Pod => Some "unknown") (p :: ps))));
        eexists; (split; [reflexivity|]); cbn;
        repeat split; auto; discriminate.
    + eexists. split; [reflexivity|]. repeat split; auto; discriminate.
Qed.

(** The amended C10 on a poll that saw one ready tick: a listing with one
    bare pod leaves the promise as it was. *)
Lemma bare_pods_tick_witness :
  promise
    (snd (tick "hello" 5000 true (PodsOk [barePod])
            (snd (waitForDeployment "hello" 5000 "default" true None [allReady]))))
  = Pending.
Proof.
  destruct (proj2 (proj2 (bare_pods_tick "hello" 5000 true))
              [barePod] [barePod]
              (snd (waitForDeployment "hello" 5000 "default" true None [allReady])))
    as (s' & T & _ & _ & P & _).
  - vm_compute. discriminate.
  - reflexivity.
  - discriminate.
  - repeat constructor.
  - rewrite T. cbn [snd]. rewrite P. reflexivity.
Defined.

End PollerClaims.

(** * Properties of the submitters *)

Section SubmitterClaims.
Import Manifest Poller Submitter Sample.

(** The request moment is the start of the second of [now]. *)
Lemma requestMomentAt_spec (now : Z) :
  requestMomentAt now mod 1000 = 0 /\
  requestMomentAt now / 1000 = now / 1000 /\
  requestMomentAt now <= now < requestMomentAt now + 1000.
Proof.
  unfold requestMomentAt.
  pose proof (Z.mod_pos_bound now 1000 ltac:(lia)) as B.
  pose proof (Z.div_mod now 1000 ltac:(lia)) as D.
  replace (now - now mod 1000) with (now / 1000 * 1000) by lia.
  rewrite Z.mod_mul by lia. rewrite Z.div_mul by lia. lia.
Qed.

(** When the submission succeeds the poll is started, and its promise is
    the only source of the settlement: fulfilment resolves with [true],
    anything else leaves the submission pending. *)
Lemma startPoll_outcome (request : Request) (call : PollCall)
    (before : list string) (exit0 : option Z) (responses : list PodsResponse) :
  let sub := startPoll request call before exit0 responses in
  let out := waitForDeployment (pollFuncName call) (pollRequestMoment call)
               (pollNamespace call) (pollVerbose call) exit0 responses in
  pollCall sub = Some call /\ poll sub = Some out /\
  outcome sub = match promise (snd out) with
                | Fulfilled _ => Fulfilled true
                | _ => Pending
                end.
Proof.
  cbv zeta. unfold startPoll. cbn [pollCall poll outcome]. repeat split.
Qed.

(** Both submitters settle from the poll alone once the request is
    accepted: they resolve with [true] when it is fulfilled and are never
    rejected. *)
Lemma submission_follows_poll (body : FunctionManifest) (ns : string)
    (verbose : bool) (now : Z) (exit0 : option Z)
    (responses : list PodsResponse) :
  let out := waitForDeployment (name body) (requestMomentAt now) ns verbose
               exit0 responses in
  let settled := match promise (snd out) with
                 | Fulfilled _ => Fulfilled true
                 | _ => Pending
                 end in
  outcome (deployFunctionAndWait body ns verbose now exit0 None responses) =
    settled /\
  outcome (redeployFunctionAndWait body ns verbose now exit0 None responses) =
    settled.
Proof.
  cbv zeta. unfold deployFunctionAndWait, redeployFunctionAndWait.
  split; apply startPoll_outcome.
Qed.

(** C5 (the code departs from the claim).  The submission succeeds and
    the poll fails with the timeout after five listings without pods; the
    promise of [deployFunctionAndWait], and of [redeployFunctionAndWait],
    is left pending instead of being rejected. *)
Theorem poll_failure_leaves_submission_pending :
  forall (body : FunctionManifest) (ns : string) (verbose : bool) (now : Z),
    let responses := [noPods; noPods; noPods; noPods; noPods] in
    let create := deployFunctionAndWait body ns verbose now None None responses in
    let update := redeployFunctionAndWait body ns verbose now None None responses in
    (exists out, poll create = Some out /\
                 promise (snd out) = Rejected (timeoutReason (name body)) /\
                 loop (snd out) = false) /\
    outcome create = Pending /\
    (exists out, poll update = Some out /\
                 promise (snd out) = Rejected (timeoutReason (name body)) /\
                 loop (snd out) = false) /\
    outcome update = Pending.
Proof.
  intros body ns verbose now. cbv zeta.
  pose proof (run_times_out (name body) (requestMomentAt now) verbose
                (initial None) noPods noPods noPods noPods noPods
                eq_refl eq_refl ltac:(cbn; lia) eq_refl eq_refl eq_refl eq_refl)
    as T.
  cbv zeta in T.
  unfold deployFunctionAndWait, redeployFunctionAndWait, startPoll,
    waitForDeployment.
  cbn [outcome poll pollFuncName pollRequestMoment pollNamespace pollVerbose].
  destruct T as [T1 T2]. rewrite T1.
  split; [eexists; split; [reflexivity|split; assumption]|].
  split; [reflexivity|].
  split; [eexists; split; [reflexivity|split; assumption]|].
  reflexivity.
Qed.

(** C6.  A refused POST never starts a poll.  On code 409 the submission
    logs the hint and resolves with [false], and the batch chain that
    follows records no error, calls no ingress provisioner and counts the
    operation; on any other code the submission is rejected. *)
Theorem conflict_is_not_an_error :
  forall (body : FunctionManifest) (ns : string) (verbose : bool) (now : Z)
         (exit0 : option Z) (err : ApiError) (responses : list PodsResponse),
    let sub := deployFunctionAndWait body ns verbose now exit0 (Some err)
                 responses in
    pollCall sub = None /\ poll sub = None /\
    (code err = 409 ->
       outcome sub = Fulfilled false /\
       logged sub =
         [tpl ["Deploying function "; name body; "..."];
          tpl ["The function "; name body; " already exists. ";
               "Redeploy it usign --force or executing ";
               dquote; "sls deploy function -f "; name body; dquote; "."]] /\
       forall total opts h op env s,
         let s' := Batch.afterDeployment total opts h op env false (outcome sub)
                     (Batch.afterSubmission sub s) in
         Batch.errors s' = Batch.errors s /\
         Batch.ingressCalls s' = Batch.ingressCalls s /\
         Batch.ingressPosts s' = Batch.ingressPosts s /\
         Batch.counter s' = Batch.counter s + 1) /\
    (code err <> 409 ->
       outcome sub = Rejected (ErrorObj
         (tpl ["Unable to deploy the function "; name body; ". Received:"; nl;
               "  Code: "; showZ (code err); nl;
               "  Message: "; message err]))).
Proof.
  intros body ns verbose now exit0 err responses. cbv zeta.
  unfold deployFunctionAndWait.
  destruct (Z.eqb_spec (code err) 409) as [E|E];
    cbn [pollCall poll outcome logged]; repeat split; try congruence;
    try (intros; reflexivity).
Qed.

(** C6 on a POST refused with code 409. *)
Lemma conflict_is_not_an_error_witness :
  outcome (deployFunctionAndWait
             helloManifest
             "default" false 5700 None
             (Some {| code := 409; message := "exists" |}) []) =
  Fulfilled false.
Proof.
  apply (conflict_is_not_an_error helloManifest "default" false 5700 None
           {| code := 409; message := "exists" |} []).
  reflexivity.
Defined.

(** C9.  Both submitters run the poll with the submission instant cut to
    its whole second: the filter of that poll admits every pod of the
    function created within that second, also before the instant, and two
    listings of such a pod, ready, resolve the submission. *)
Theorem request_moment_is_whole_second :
  forall (body : FunctionManifest) (ns : string) (verbose : bool) (now : Z)
         (exit0 : option Z) (responses : list PodsResponse) (pod : Pod),
    labels pod = Some {| function := Some (name body) |} ->
    creationTimestamp pod / 1000 = now / 1000 ->
    let moment := now - now mod 1000 in
    let create := deployFunctionAndWait body ns verbose now exit0 None in
    let update := redeployFunctionAndWait body ns verbose now exit0 None in
    poll (create responses) =
      Some (waitForDeployment (name body) moment ns verbose exit0 responses) /\
    poll (update responses) =
      Some (waitForDeployment (name body) moment ns verbose exit0 responses) /\
    moment mod 1000 = 0 /\ moment / 1000 = now / 1000 /\ moment <= now /\
    isFunctionPod (name body) moment pod = Ok true /\
    (forall items pods,
        functionPodsOf (name body) moment items = Ok pods ->
        In pod items -> In pod pods) /\
    (Observation.firstReady pod = true ->
     outcome (create (PodsOk [pod] :: PodsOk [pod] :: responses)) =
       Fulfilled true /\
     outcome (update (PodsOk [pod] :: PodsOk [pod] :: responses)) =
       Fulfilled true).
Proof.
  intros body ns verbose now exit0 responses pod Hl Hc moment create update.
  destruct (requestMomentAt_spec now) as (M1 & M2 & M3).
  fold (requestMomentAt now) in moment.
  assert (F : isFunctionPod (name body) moment pod = Ok true).
  { unfold isFunctionPod. rewrite Hl. cbn [function].
    rewrite String.eqb_refl. cbn [andb]. f_equal.
    apply Z.leb_le. subst moment.
    pose proof (Z.mod_pos_bound (creationTimestamp pod) 1000 ltac:(lia)).
    pose proof (Z.div_mod (creationTimestamp pod) 1000 ltac:(lia)).
    pose proof (Z.div_mod (requestMomentAt now) 1000 ltac:(lia)).
    lia. }
  split; [reflexivity|]. split; [reflexivity|].
  split; [exact M1|]. split; [exact M2|]. split; [lia|]. split; [exact F|].
  split.
  - induction items as [|item items IH]; intros pods E Hin; [contradiction|].
    cbn [functionPodsOf] in E.
    destruct (isFunctionPod (name body) moment item) as [keep|e] eqn:K;
      [|discriminate E].
    destruct (functionPodsOf (name body) moment items) as [rest|e];
      [|discriminate E].
    injection E as <-. destruct Hin as [->|Hin].
    + rewrite F in K. injection K as <-. left. reflexivity.
    + specialize (IH rest eq_refl Hin). destruct keep; [right|]; exact IH.
  - intros R.
    assert (Q : Observation.fullyReady (name body) moment (PodsOk [pod]) = true).
    { unfold Observation.fullyReady. cbn [functionPodsOf]. rewrite F.
      cbn [forallb]. rewrite R. reflexivity. }
    subst create update. unfold deployFunctionAndWait, redeployFunctionAndWait,
      startPoll, waitForDeployment.
    cbn [outcome pollFuncName pollRequestMoment pollNamespace pollVerbose].
    fold moment.
    rewrite (run_two_ready (name body) moment verbose (initial exit0)
               (PodsOk [pod]) (PodsOk [pod]) responses)
      by (try reflexivity; try exact Q; cbn; lia).
    split; reflexivity.
Qed.

(** C9 at instant 5700 for a ready pod created at 5200, half a second
    before the submission. *)
Lemma request_moment_is_whole_second_witness :
  5200 < 5700 /\
  outcome (deployFunctionAndWait helloManifest "default" false 5700 None None
             [PodsOk [{| labels := Some {| function := Some "hello" |};
                         creationTimestamp := 5200;
                         containerStatuses :=
                           Some [{| ready := true; restartCount := 0;
                                    state := None |}] |}];
              PodsOk [{| labels := Some {| function := Some "hello" |};
                         creationTimestamp := 5200;
                         containerStatuses :=
                           Some [{| ready := true; restartCount := 0;
                                    state := None |}] |}]]) =
  Fulfilled true.
Proof.
  split; [lia|].
  apply (request_moment_is_whole_second helloManifest "default" false 5700 None
           []
           {| labels := Some {| function := Some "hello" |};
              creationTimestamp := 5200;
              containerStatuses :=
                Some [{| ready := true; restartCount := 0; state := None |}] |});
    reflexivity.
Defined.

End SubmitterClaims.

(** * Properties of the ingress provisioner *)

Section IngressClaims.
Import Manifest Ingress Sample.

(** C8.  No ingress document is posted when the event type is not [http],
    or when the path is empty or [/] and no host name is given; otherwise
    exactly one document is posted: an [Ingress] named after the function
    with one rule, whose host is the given host name or the host of the
    API followed by [.nip.io], and whose single path is the given path
    with [/] put in front unless it starts with one, served by the
    function on port 8080. *)
Theorem ingress_posted_when_necessary :
  forall (funcName eventType : string) (eventPath eventHostname : option string)
         (ns : string) (verbose : bool) (apiHostname : string)
         (postErr : option ApiError),
    let r := addIngressRuleIfNecessary funcName eventType eventPath
               eventHostname ns verbose apiHostname postErr in
    let given := match eventPath with Some p => p | None => EmptyString end in
    let host := match eventHostname with
                | Some (String c h) => String c h
                | _ => (apiHostname ++ ".nip.io")%string
                end in
    let defaultPath := String.eqb given EmptyString || String.eqb given "/" in
    let skip := negb (String.eqb eventType "http") ||
                (defaultPath && isEmptyStr eventHostname) in
    (skip = true -> posts r = [] /\ outcome r = Fulfilled tt) /\
    (skip = false ->
       posts r =
         [{| ingressKind := "Ingress";
             ingressName := ("ingress-" ++ funcName)%string;
             ingressLabels := [("function", funcName)];
             ingressAnnotations :=
               [("kubernetes.io/ingress.class", "nginx");
                ("ingress.kubernetes.io/rewrite-target", "/")];
             rules :=
               [{| host := host;
                   paths :=
                     [{| path := if startsWith given "/" then given
                                 else String "/" given;
                         backend := {| serviceName := funcName;
                                       servicePort := 8080 |} |}] |}] |}]).
Proof.
  intros funcName eventType eventPath eventHostname ns verbose apiHostname
    postErr.
  cbv zeta. unfold addIngressRuleIfNecessary, getIngressDescription.
  destruct (String.eqb eventType "http");
    [|cbn; split; [auto|discriminate]].
  destruct eventPath as [[|c p]|].
  1, 3: destruct eventHostname as [[|d h]|]; cbn;
    (split; [intros H; try discriminate H; auto
            |intros H; try discriminate H; destruct postErr; reflexivity]).
  destruct (Ascii.eqb_spec c "/") as [->|N].
  - destruct p as [|c' p'];
      destruct eventHostname as [[|d h]|]; cbn;
      (split; [intros H; try discriminate H; auto
              |intros H; try discriminate H; destruct postErr; reflexivity]).
  - assert (E1 : Ascii.eqb c "/" = false) by (apply Ascii.eqb_neq; exact N).
    assert (E2 : Ascii.eqb "/" c = false)
      by (apply Ascii.eqb_neq; congruence).
    destruct eventHostname as [[|d h]|];
      cbn -[Ascii.eqb]; rewrite ?E1, ?E2;
      cbn -[Ascii.eqb];
      (split; [intros H; try discriminate H; auto
              |intros H; try discriminate H; destruct postErr; reflexivity]).
Qed.

(** C8 on an [http] event with path [foo]: one document, for [/foo]. *)
Lemma ingress_posted_when_necessary_witness :
  posts (addIngressRuleIfNecessary "hello" "http" (Some "foo") None "default"
           false "1.2.3.4" None) =
  [{| ingressKind := "Ingress";
      ingressName := "ingress-hello";
      ingressLabels := [("function", "hello")];
      ingressAnnotations :=
        [("kubernetes.io/ingress.class", "nginx");
         ("ingress.kubernetes.io/rewrite-target", "/")];
      rules :=
        [{| host := "1.2.3.4.nip.io";
            paths := [{| path := "/foo";
                         backend := {| serviceName := "hello";
                                       servicePort := 8080 |} |}] |}] |}].
Proof.
  apply (ingress_posted_when_necessary "hello" "http" (Some "foo") None
           "default" false "1.2.3.4" None).
  reflexivity.
Defined.

End IngressClaims.

(** * Properties of the batch coordinator *)

Section BatchClaims.
Import Manifest Submitter Batch Sample.

(** Settling [p] calls no provisioner. *)
Lemma afterProvision_ingressCalls (total : Z) (p : Promise unit) (s : State) :
  ingressCalls (afterProvision total p s) = ingressCalls s.
Proof.
  destruct p; reflexivity.
Qed.

(** The [then] callback calls the provisioner once when [deployed] is
    [true] and the operation is no redeployment, and not at all
    otherwise. *)
Lemma onDeployed_ingressCalls (total : Z) (opts : Options.t) (h : Helpers)
    (op : Op) (env : OpEnv) (redeployed : bool) (deployed : option bool)
    (s : State) :
  ingressCalls (onDeployed total opts h op env redeployed deployed s) =
  ingressCalls s ++
  (if negb redeployed && match deployed with Some b => b | None => false end
   then [{| callFuncName := Description.id (opDescription op);
            callEventType := Event.type (opEvent op);
            callEventPath := Event.path (opEvent op);
            callEventHostname :=
              orElse (Event.hostname (opEvent op)) (Options.hostname opts);
            callNamespace := connNamespace op |}]
   else []).
Proof.
  unfold onDeployed.
  destruct deployed as [[|]|], redeployed; cbn [negb orb andb];
    rewrite afterProvision_ingressCalls; cbn [ingressCalls];
    rewrite ?app_nil_r; reflexivity.
Qed.

Lemma afterDeployment_ingressCalls (total : Z) (opts : Options.t) (h : Helpers)
    (op : Op) (env : OpEnv) (redeployed : bool) (d : Promise bool) (s : State) :
  ingressCalls (afterDeployment total opts h op env redeployed d s) =
  ingressCalls s ++
  (if negb redeployed && match d with Fulfilled b => b | _ => false end
   then [{| callFuncName := Description.id (opDescription op);
            callEventType := Event.type (opEvent op);
            callEventPath := Event.path (opEvent op);
            callEventHostname :=
              orElse (Event.hostname (opEvent op)) (Options.hostname opts);
            callNamespace := connNamespace op |}]
   else []).
Proof.
  unfold afterDeployment. destruct d as [|b|e].
  - destruct (negb redeployed); cbn; rewrite app_nil_r; reflexivity.
  - apply onDeployed_ingressCalls.
  - rewrite onDeployed_ingressCalls. cbn [ingressCalls pushError].
    rewrite andb_false_r. reflexivity.
Qed.

(** The calls of the ingress provisioner made by the chain of one
    operation. *)
Lemma onFunctionsInfo_ingressCalls (total : Z) (opts : Options.t) (h : Helpers)
    (op : Op) (env : OpEnv) (s : State) :
  exists calls,
    ingressCalls (onFunctionsInfo total opts h op env s) =
      ingressCalls s ++ calls /\
    (List.length calls <= 1)%nat /\
    (calls <> [] ->
     exists items,
       listing env = ListOk items /\
       existingSameFunction items (funcs op) = false /\
       existingFunction items (funcs op) && Options.force opts = false /\
       submitErr env = None /\
       Submitter.outcome
         (deployFunctionAndWait (funcs op) (connNamespace op)
            (Options.verbose opts) (now env) (exitCode s) None
            (podResponses env)) = Fulfilled true).
Proof.
  unfold onFunctionsInfo.
  destruct (listing env) as [e|items] eqn:L.
  - exists []. cbn. rewrite app_nil_r. repeat split; auto. congruence.
  - destruct (existingSameFunction items (funcs op)) eqn:Same.
    + exists []. rewrite afterDeployment_ingressCalls. cbn.
      repeat split; auto. congruence.
    + destruct (existingFunction items (funcs op) && Options.force opts) eqn:Re.
      * exists []. rewrite afterDeployment_ingressCalls. cbn.
        repeat split; auto. congruence.
      * rewrite afterDeployment_ingressCalls. cbn [negb andb].
        eexists. split; [reflexivity|].
        destruct (Submitter.outcome _) as [|[|]|r] eqn:O; cbn;
          (split; [lia|]); try congruence.
        intros _. exists items. repeat split; auto.
        -- destruct (submitErr env) as [err|]; [|reflexivity].
           unfold deployFunctionAndWait in O.
           destruct (code err =? 409); discriminate O.
        -- destruct (submitErr env) as [err|]; [|exact O].
           unfold deployFunctionAndWait in O.
           destruct (code err =? 409); discriminate O.
Qed.

(** A batch calls the provisioner at most once per completed operation. *)
Lemma deploy_ingressCalls_bound (h : Helpers) (functions : list Description.t)
    (runtime : string) (opts : Options.t) (completions : list (nat * OpEnv)) :
  (List.length (ingressCalls (deploy h functions runtime opts completions))
   <= List.length completions)%nat.
Proof.
  unfold deploy.
  set (f := fun (s : State) (c : nat * OpEnv) => _).
  assert (G : forall l s,
             (List.length (ingressCalls (fold_left f l s))
              <= List.length (ingressCalls s) + List.length l)%nat).
  { induction l as [|c l IH]; intros s; cbn [fold_left List.length]; [lia|].
    specialize (IH (f s c)).
    assert (List.length (ingressCalls (f s c))
            <= S (List.length (ingressCalls s)))%nat; [|lia].
    subst f. cbv beta.
    destruct (uncaught s); [lia|].
    destruct (nth_error _ (fst c)) as [op|]; [|lia].
    destruct (onFunctionsInfo_ingressCalls
                (Z.of_nat (List.length functions)) opts h op (snd c) s)
      as (calls & E & B & _).
    rewrite E, length_app. lia. }
  apply (G completions).
Qed.

(** C7.  The chain of one operation calls the ingress provisioner at most
    once, and when it does the listing held no function of that name with
    the same spec, the operation was no forced redeployment, the POST was
    accepted and [deployFunctionAndWait] resolved with [true].  It makes no
    call after a skip for an unchanged spec, after a forced redeployment
    or after a refused POST, a conflict included. *)
Theorem ingress_only_after_fresh_creation :
  forall (total : Z) (opts : Options.t) (h : Helpers) (op : Op) (env : OpEnv)
         (s : State),
    let s' := onFunctionsInfo total opts h op env s in
    (exists calls,
       ingressCalls s' = ingressCalls s ++ calls /\
       (List.length calls <= 1)%nat /\
       (calls <> [] ->
        exists items,
          listing env = ListOk items /\
          existingSameFunction items (funcs op) = false /\
          existingFunction items (funcs op) && Options.force opts = false /\
          submitErr env = None /\
          Submitter.outcome
            (deployFunctionAndWait (funcs op) (connNamespace op)
               (Options.verbose opts) (now env) (exitCode s) None
               (podResponses env)) = Fulfilled true)) /\
    (forall items,
       listing env = ListOk items ->
       existingSameFunction items (funcs op) = true \/
       existingFunction items (funcs op) && Options.force opts = true \/
       submitErr env <> None ->
       ingressCalls s' = ingressCalls s).
Proof.
  intros total opts h op env s s'.
  pose proof (onFunctionsInfo_ingressCalls total opts h op env s) as A.
  split; [exact A|].
  intros items L H. destruct A as (calls & E & _ & F).
  subst s'. rewrite E. destruct calls as [|c calls]; [apply app_nil_r|].
  destruct (F ltac:(discriminate)) as (items' & L' & S' & R' & N' & _).
  rewrite L in L'. injection L' as <-.
  destruct H as [H|[H|H]]; congruence.
Qed.

(** C7 on a POST refused with a conflict: the provisioner is not called. *)
Lemma ingress_only_after_fresh_creation_witness :
  ingressCalls
    (onFunctionsInfo 1 options helpers helloOp
       (refusing {| code := 409; message := "exists" |})
       (started {| ops := [helloOp]; skipped := []; thrown := None |})) = [].
Proof.
  apply (proj2 (ingress_only_after_fresh_creation 1 options helpers helloOp
                  (refusing {| code := 409; message := "exists" |})
                  (started {| ops := [helloOp]; skipped := []; thrown := None |}))
           []).
  - reflexivity.
  - right. right. discriminate.
Defined.

(** C1 (the code departs from the claim).  The batch compares its counter
    with the number of functions.  A function with two events resolves the
    batch when the first of its two operations completes; a function
    without handler next to a deployed one leaves the batch pending when
    every scheduled operation has completed; and an operation whose
    ingress POST is refused records its error but is never counted, so
    the batch stays pending instead of failing. *)
Theorem batch_counts_functions_not_operations :
  let run := deploy helpers in
  let twoEvents := [hello (Some "h.hello") [httpEvent "/a"; httpEvent "/b"]] in
  let oneSkipped := [hello (Some "h.hello") []; hello None []] in
  let single := [hello (Some "h.hello") [httpEvent "/a"]] in
  let boom := {| code := 500; message := "boom" |} in
  List.length (ops (schedule helpers "python2.7" options twoEvents)) = 2%nat /\
  outcome (run twoEvents "python2.7" options [(0%nat, healthy None)]) =
    Fulfilled tt /\
  List.length (ops (schedule helpers "python2.7" options oneSkipped)) = 1%nat /\
  outcome (run oneSkipped "python2.7" options [(0%nat, healthy None)]) =
    Pending /\
  errors (run single "python2.7" options [(0%nat, healthy (Some boom))]) =
    [Str "Unable to deploy the function hello in the given path. Received: boom"] /\
  outcome (run single "python2.7" options [(0%nat, healthy (Some boom))]) =
    Pending.
Proof.
  vm_compute. repeat split; reflexivity.
Qed.

End BatchClaims.

(** * Further properties of the readiness poller *)

Section PollerBehaviour.
Import Poller Observation.

Variables (funcName : string) (requestMoment : Z) (verbose : bool).

Ltac step_poll :=
  unfold log, clearInterval, settle, setRetries, setSuccessfulCount,
    setPreviousPodStatus, failExitCode, bind, ret, throw, gets, modify in *;
  cbn [fst snd retries successfulCount previousPodStatus loop promise logged
       exitCode] in *.

(** X1.  Two ticks in a row on which every pod of the listing has labels
    and every pod of the function is ready resolve a poll that had counted
    no stable observation: the promise is fulfilled, the timer disarmed,
    one line logged, and later listings are never requested. *)
Theorem two_ready_ticks_resolve :
  forall (s : PollState) (r1 r2 : PodsResponse) (more : list PodsResponse),
    loop s = true -> promise s = Pending -> retries s <= 3 ->
    successfulCount s = 0 ->
    fullyReady funcName requestMoment r1 = true ->
    fullyReady funcName requestMoment r2 = true ->
    run funcName requestMoment verbose (r1 :: r2 :: more) s =
    (Ok tt,
     {| retries := retries s; successfulCount := 2;
        previousPodStatus := previousPodStatus s; loop := false;
        promise := Fulfilled tt;
        logged := logged s ++
          [tpl ["Function "; funcName; " succesfully deployed"]];
        exitCode := exitCode s |}).
Proof.
  intros s r1 r2 more L P Hr Hc F1 F2.
  cbn [run]. rewrite L. rewrite (tick_fullyReady _ _ _ _ _ F1 Hr).
  rewrite Hc. cbn [Z.add Z.eqb Pos.eqb loop].
  rewrite L. rewrite tick_fullyReady by (assumption || (cbn; assumption)).
  cbn [successfulCount Z.add Pos.add Z.eqb Pos.eqb retries previousPodStatus
       promise logged exitCode].
  rewrite P. rewrite run_stopped by reflexivity. reflexivity.
Qed.

(** A tick keeps a settled promise. *)
Lemma tick_settled (resp : PodsResponse) (s : PollState) r s' :
  tick funcName requestMoment verbose resp s = (r, s') ->
  promise s <> Pending -> promise s' = promise s.
Proof.
  rewrite tick_unfold. intros H N.
  destruct (onPods_promise _ _ _ _ _ _ _ H) as [E|E]; rewrite E;
    destruct (retries s >? 3); cbn [promise];
    destruct (promise s); try reflexivity; contradiction.
Qed.

(** A poll that is settled stays settled with the same outcome, whatever
    listings follow. *)
Lemma settled_poll_is_final :
  forall (responses : list PodsResponse) (s : PollState),
    promise s <> Pending ->
    promise (snd (run funcName requestMoment verbose responses s)) = promise s.
Proof.
  induction responses as [|resp rest IH]; intros s N; cbn [run].
  - reflexivity.
  - destruct (loop s); [|reflexivity].
    destruct (tick funcName requestMoment verbose resp s) as [[u|e] t] eqn:T.
    + rewrite IH; rewrite (tick_settled _ _ _ _ T N); auto.
    + cbn [snd]. apply (tick_settled _ _ _ _ T N).
Qed.

(** X2.  A tick fulfils a pending poll only when its listing holds pods
    of the function that are all ready; the stability counter is then 2
    and the timer disarmed.  It never resolves on an empty or partly ready
    listing, nor on a transport error. *)
Theorem tick_fulfils_only_when_all_ready :
  forall (resp : PodsResponse) (s s' : PollState) (r : Result unit) (v : unit),
    tick funcName requestMoment verbose resp s = (r, s') ->
    promise s = Pending -> promise s' = Fulfilled v ->
    fullyReady funcName requestMoment resp = true /\
    successfulCount s' = 2 /\ loop s' = false.
Proof.
  intros resp s s' r v. rewrite tick_unfold. intros H P F.
  destruct (retries s >? 3).
  - destruct (onPods_promise _ _ _ _ _ _ _ H) as [E|E]; rewrite E in F;
      cbn in F; rewrite P in F; discriminate F.
  - apply (onPods_fulfils _ _ _ _ _ _ _ _ H P F).
Qed.

(** X3.  A transport error whose message holds [request timed out] is
    soft: below the give-up limit the tick only logs a line; no retry is
    counted and the stability counter is kept. *)
Theorem transport_timeout_is_soft :
  forall (msg : string) (s : PollState),
    includes "request timed out" msg = true -> retries s <= 3 ->
    tick funcName requestMoment verbose (PodsError msg) s =
    (Ok tt,
     {| retries := retries s; successfulCount := successfulCount s;
        previousPodStatus := previousPodStatus s; loop := loop s;
        promise := promise s;
        logged := logged s ++ ["Request timed out. Retrying..."];
        exitCode := exitCode s |}).
Proof.
  intros msg s I Hr. rewrite tick_unfold.
  destruct (Z.gtb_spec (retries s) 3) as [|_]; [lia|].
  unfold onPods. rewrite I. reflexivity.
Qed.

(** X4.  Any other transport error is thrown out of the callback: the
    poll stops there with its promise neither resolved nor rejected, and
    no later listing is looked at. *)
Theorem transport_error_is_thrown :
  forall (msg : string) (s : PollState) (more : list PodsResponse),
    includes "request timed out" msg = false ->
    loop s = true -> retries s <= 3 ->
    run funcName requestMoment verbose (PodsError msg :: more) s =
    (Throw (ErrorObj msg), s).
Proof.
  intros msg s more I L Hr. cbn [run]. rewrite L, tick_unfold.
  destruct (Z.gtb_spec (retries s) 3) as [|_]; [lia|].
  unfold onPods. rewrite I. reflexivity.
Qed.

(** X5.  [retries] is never reset or decreased: over any run of listings
    it can only grow. *)
Theorem retries_never_decrease :
  forall (responses : list PodsResponse) (s : PollState),
    retries s <= retries (snd (run funcName requestMoment verbose responses s)).
Proof.
  induction responses as [|resp rest IH]; intros s; cbn [run].
  - cbn. lia.
  - destruct (loop s); [|cbn; lia].
    pose proof (tick_retries funcName requestMoment verbose resp s) as R.
    destruct (tick funcName requestMoment verbose resp s) as [[u|e] t];
      cbn [snd] in *.
    + specialize (IH t).
      destruct (noMatchingPod funcName requestMoment resp); lia.
    + destruct (noMatchingPod funcName requestMoment resp); lia.
Qed.

(** The inspection writes [1] into an unset or zero exit code at most,
    and keeps a failing one. *)
Lemma eachPod_exitCode (pods : list Pod) :
  forall n s,
    let s' := snd (eachPod pods n s) in
    (exitCode s' = exitCode s \/ exitCode s' = Some 1) /\
    (forall c, exitCode s = Some c -> c <> 0 -> exitCode s' = Some c).
Proof.
  induction pods as [|pod rest IH]; intros n s; cbn [eachPod].
  - cbn. auto.
  - unfold bind at 1. unfold inspectPod.
    destruct (containerStatuses pod) as [[|first others]|].
    + cbn. auto.
    + destruct (ready first).
      * apply IH.
      * destruct (restartCount first >? 2).
        -- step_poll.
           match goal with |- context [eachPod rest n ?t] =>
             destruct (IH n t) as [[A|A] B] end;
             cbn [exitCode] in *; cbv zeta; rewrite ?A.
           ++ split.
              ** destruct (exitCode s) as [c|]; [|auto].
                 destruct (Z.eqb_spec c 0); auto.
              ** intros c Hc Nc. rewrite Hc.
                 destruct (Z.eqb_spec c 0); [contradiction|reflexivity].
           ++ split; [auto|].
              intros c Hc Nc. rewrite <- A. apply B; [|exact Nc].
              rewrite Hc. destruct (Z.eqb_spec c 0); [contradiction|reflexivity].
        -- apply IH.
    + apply IH.
Qed.

Lemma onPods_exitCode (resp : PodsResponse) (s : PollState) r s' :
  onPods funcName requestMoment verbose resp s = (r, s') ->
  (exitCode s' = exitCode s \/ exitCode s' = Some 1) /\
  (forall c, exitCode s = Some c -> c <> 0 -> exitCode s' = Some c).
Proof.
  unfold onPods. destruct resp as [msg|items]; cbv beta iota zeta.
  - destruct (includes _ msg); cbn; intros [= <- <-]; cbn; auto.
  - unfold bind at 1. unfold liftResult.
    destruct (functionPodsOf funcName requestMoment items) as [[|p ps]|err] eqn:E;
      cbv beta iota.
    + cbn. intros [= <- <-]; cbn; auto.
    + unfold bind at 1.
      pose proof (eachPod_exitCode (p :: ps) 0 s) as F. cbv zeta in F.
      destruct (eachPod (p :: ps) 0 s) as [[n|e] t]; cbn [snd] in *;
        [|intros [= <- <-]; exact F].
      destruct (n =? _).
      * step_poll. destruct (successfulCount t + 1 =? 2); cbn;
          intros [= <- <-]; exact F.
      * destruct verbose; [|cbn; intros [= <- <-]; exact F].
        unfold bind at 1. unfold setSuccessfulCount at 1. unfold modify at 1.
        unfold bind at 1.
        match goal with |- context [mapPodStatus (p :: ps) ?u] =>
          pose proof (mapPodStatus_state (p :: ps) u) as G;
          destruct (mapPodStatus (p :: ps) u) as [[xs|e] w] end;
          cbn [snd] in *; subst w; [|cbn; intros [= <- <-]; exact F].
        step_poll. destruct (negb _); cbn; intros [= <- <-]; exact F.
    + intros [= <- <-]; auto.
Qed.

(** X6.  A poll never clears a failing exit code of the process: over any
    run the exit code is the one it started with or [1], and a non-zero
    one is kept. *)
Theorem failing_exit_code_is_kept :
  forall (responses : list PodsResponse) (s : PollState),
    let s' := snd (run funcName requestMoment verbose responses s) in
    (exitCode s' = exitCode s \/ exitCode s' = Some 1) /\
    (forall c, exitCode s = Some c -> c <> 0 -> exitCode s' = Some c).
Proof.
  induction responses as [|resp rest IH]; intros s; cbn [run]; cbv zeta.
  - cbn. auto.
  - destruct (loop s); [|cbn; auto].
    destruct (tick funcName requestMoment verbose resp s) as [r t] eqn:T.
    assert (O : (exitCode t = exitCode s \/ exitCode t = Some 1) /\
                (forall c, exitCode s = Some c -> c <> 0 -> exitCode t = Some c)).
    { rewrite tick_unfold in T. apply onPods_exitCode in T.
      destruct (retries s >? 3); exact T. }
    destruct r as [u|e]; cbn [snd]; [|exact O].
    destruct (IH t) as [A B]. destruct O as [T1 T2]. split.
    + destruct A as [A|A]; [|auto]. rewrite A. exact T1.
    + intros c Hc Nc. apply B; [|exact Nc]. apply T2; assumption.
Qed.







(** The filter throws on a listing that holds a pod without labels. *)
Lemma functionPodsOf_unlabelled (items : list Pod) (pod : Pod) :
  In pod items -> labels pod = None ->
  exists err, functionPodsOf funcName requestMoment items = Throw err.
Proof.
  induction items as [|item items IH]; intros Hin L; [contradiction|].
  cbn [functionPodsOf]. destruct Hin as [->|Hin].
  - unfold isFunctionPod. rewrite L. eexists. reflexivity.
  - destruct (isFunctionPod funcName requestMoment item) as [keep|e];
      [|eexists; reflexivity].
    destruct (IH Hin L) as (err & E). rewrite E. eexists. reflexivity.
Qed.

(** X26.  A listing that holds a pod without labels makes the filter, and
    with it the callback of the listing, throw: below the give-up limit
    the tick leaves the poll state as it was, the promise is neither
    resolved nor rejected, and no later listing is looked at; such a
    listing counts neither as fully ready nor as without matching pod. *)
Theorem unlabelled_pod_throws :
  forall (items : list Pod) (pod : Pod) (more : list PodsResponse)
         (s : PollState),
    In pod items -> labels pod = None -> loop s = true -> retries s <= 3 ->
    (exists err,
       functionPodsOf funcName requestMoment items = Throw err /\
       tick funcName requestMoment verbose (PodsOk items) s = (Throw err, s) /\
       run funcName requestMoment verbose (PodsOk items :: more) s =
         (Throw err, s)) /\
    fullyReady funcName requestMoment (PodsOk items) = false /\
    waiting funcName requestMoment (PodsOk items) = false /\
    noMatchingPod funcName requestMoment (PodsOk items) = false.
Proof.
  intros items pod more s Hin L Hl Hr.
  destruct (functionPodsOf_unlabelled items pod Hin L) as (err & E).
  assert (T : tick funcName requestMoment verbose (PodsOk items) s =
              (Throw err, s)).
  { rewrite tick_unfold.
    destruct (Z.gtb_spec (retries s) 3) as [|_]; [lia|].
    unfold onPods. unfold bind at 1. unfold liftResult. rewrite E.
    reflexivity. }
  split.
  - exists err. split; [exact E|]. split; [exact T|].
    cbn [run]. rewrite Hl, T. reflexivity.
  - unfold fullyReady, waiting, noMatchingPod. rewrite E. auto.
Qed.

End PollerBehaviour.

Section PollerBehaviourExamples.
Import Poller Observation.

(** X1 on a fresh poll that sees the same ready pod twice. *)
Lemma two_ready_ticks_resolve_witness :
  promise (snd (run "hello" 5000 false
                  [Sample.allReady; Sample.allReady; Sample.noPods]
                  (initial None))) = Fulfilled tt.
Proof.
  rewrite (two_ready_ticks_resolve "hello" 5000 false (initial None)
             Sample.allReady Sample.allReady [Sample.noPods]);
    try reflexivity.
  cbn. lia.
Defined.

(** X2 on the second tick of a poll that sees a ready pod twice. *)
Lemma tick_fulfils_only_when_all_ready_witness :
  fullyReady "hello" 5000 Sample.allReady = true /\
  successfulCount
    (snd (tick "hello" 5000 false Sample.allReady
            (snd (run "hello" 5000 false [Sample.allReady] (initial None))))) = 2.
Proof.
  pose proof (tick_fulfils_only_when_all_ready "hello" 5000 false
                Sample.allReady
                (snd (run "hello" 5000 false [Sample.allReady] (initial None)))
                (snd (tick "hello" 5000 false Sample.allReady
                        (snd (run "hello" 5000 false [Sample.allReady]
                                (initial None)))))
                (Ok tt) tt eq_refl eq_refl eq_refl) as H.
  split; apply H.
Defined.

(** X3 on the first tick of a poll. *)
Lemma transport_timeout_is_soft_witness :
  retries (snd (tick "hello" 5000 false
                  (PodsError "Error: request timed out") (initial None))) = 0.
Proof.
  rewrite (transport_timeout_is_soft "hello" 5000 false
             "Error: request timed out" (initial None)).
  - reflexivity.
  - reflexivity.
  - cbn. lia.
Defined.

(** X4 on the first tick of a poll. *)
Lemma transport_error_is_thrown_witness :
  fst (run "hello" 5000 false
         [PodsError "connect ECONNREFUSED"; Sample.allReady] (initial None)) =
  Throw (ErrorObj "connect ECONNREFUSED").
Proof.
  rewrite (transport_error_is_thrown "hello" 5000 false
             "connect ECONNREFUSED" (initial None) [Sample.allReady]).
  - reflexivity.
  - reflexivity.
  - reflexivity.
  - cbn. lia.
Defined.

(** X6 on a crash loop seen by a process whose exit code is already 2. *)
Lemma failing_exit_code_is_kept_witness :
  exitCode (snd (run "hello" 5000 false [Sample.crashLoop] (initial (Some 2)))) =
  Some 2.
Proof.
  apply (proj2 (failing_exit_code_is_kept "hello" 5000 false
                  [Sample.crashLoop] (initial (Some 2))) 2).
  - reflexivity.
  - lia.
Defined.


(** X26 on a fresh poll whose first listing holds a ready pod of [hello]
    and a pod without labels. *)
Lemma unlabelled_pod_throws_witness :
  fullyReady "hello" 5000
    (PodsOk [Sample.pod true 0;
             {| labels := None; creationTimestamp := 6000;
                containerStatuses := None |}]) = false.
Proof.
  apply (unlabelled_pod_throws "hello" 5000 false
           [Sample.pod true 0;
            {| labels := None; creationTimestamp := 6000;
               containerStatuses := None |}]
           {| labels := None; creationTimestamp := 6000;
              containerStatuses := None |}
           [] (initial None)).
  - right. left. reflexivity.
  - reflexivity.
  - reflexivity.
  - cbn. lia.
Defined.

End PollerBehaviourExamples.

(** * Properties of the manifest builders *)

Section ManifestBehaviour.
Import Manifest.






(** X9.  The builder succeeds exactly on [http] events and on [trigger]
    events with a topic.  An [HTTP] manifest carries no topic and a
    [PubSub] manifest carries the non-empty topic of the event; a
    [trigger] without topic and any other event type throw, each with its
    own message. *)
Theorem manifest_event_types :
  forall (funcName ns runtime : string) (deps : option string)
         (content handler : string) (desc : option string)
         (labels env : option (list (string * string))) (memory : option Size)
         (eventType : string) (eventTrigger : option string),
    let r := getFunctionDescription funcName ns runtime deps content handler
               desc labels env memory eventType eventTrigger in
    (forall f, r = Ok f ->
       (eventType = "http" /\ type (spec f) = "HTTP" /\ topic (spec f) = None) \/
       (eventType = "trigger" /\ type (spec f) = "PubSub" /\
        exists t, t <> EmptyString /\ eventTrigger = Some t /\
                  topic (spec f) = Some t)) /\
    (forall e, r = Throw e ->
       (eventType = "trigger" /\ isEmptyStr eventTrigger = true /\
        e = ErrorObj "You should specify a topic for the trigger event") \/
       (eventType <> "http" /\ eventType <> "trigger" /\
        e = ErrorObj (tpl ["Event type "; eventType; " is not supported"]))).
Proof.
  intros funcName ns runtime deps content handler desc labels env memory
    eventType eventTrigger. cbv zeta. unfold getFunctionDescription.
  destruct (String.eqb_spec eventType "http") as [Hh|Hh].
  - split; [|discriminate]. intros f [= <-]. left. auto.
  - destruct (String.eqb_spec eventType "trigger") as [Ht|Ht].
    + destruct eventTrigger as [[|c t]|]; cbn [isEmptyStr String.eqb].
      * split; [discriminate|]. intros e [= <-]. left. auto.
      * split; [|discriminate]. intros f [= <-]. right.
        repeat split; auto. exists (String c t). repeat split. discriminate.
      * split; [discriminate|]. intros e [= <-]. left. auto.
    + split; [discriminate|]. intros e [= <-]. right. auto.
Qed.

(** X10.  A built manifest has the given name and namespace, the given
    labels, and [deps] defaulted to the empty string; the description
    annotation is present exactly for a non-empty description.  The
    container template is absent exactly when no environment is given and
    the memory size is falsy (missing, the number 0 or the empty string);
    a template that is present holds memory exactly for a truthy size and
    environment entries exactly for a given environment. *)
Theorem manifest_optional_parts :
  forall (funcName ns runtime : string) (deps : option string)
         (content handler : string) (desc : option string)
         (labels env : option (list (string * string))) (memory : option Size)
         (eventType : string) (eventTrigger : option string)
         (f : FunctionManifest),
    getFunctionDescription funcName ns runtime deps content handler desc labels
      env memory eventType eventTrigger = Ok f ->
    name f = funcName /\ namespace f = ns /\ Manifest.labels f = labels /\
    Manifest.deps (spec f) = match deps with Some d => d | None => EmptyString end /\
    (annotations f = None <-> isEmptyStr desc = true) /\
    (template (spec f) = None <-> env = None /\ truthySize memory = false) /\
    (forall c, template (spec f) = Some c ->
       (Manifest.memory c = None <-> truthySize memory = false) /\
       (Manifest.env c = None <-> env = None)).
Proof.
  intros funcName ns runtime deps content handler desc labels env memory
    eventType eventTrigger f. unfold getFunctionDescription.
  intros H.
  assert (D : match orElse deps (Some EmptyString) with
              | Some d => d
              | None => EmptyString
              end = match deps with Some d => d | None => EmptyString end).
  { destruct deps as [[|c d]|]; reflexivity. }
  assert (A : (if truthyStr desc
               then option_map
                      (fun d => [("kubeless.serverless.com/description", d)]) desc
               else None) = None <-> isEmptyStr desc = true).
  { destruct desc as [[|c d]|]; cbn; intuition congruence. }
  set (container :=
         {| containerName := funcName;
            env := option_map
                     (map (fun kv => {| envName := fst kv; envValue := snd kv |}))
                     env;
            memory :=
              match memory with
              | Some m =>
                  if truthySize memory
                  then Some (if endsWithDigit (sizeToString m)
                             then SizeText (tpl [sizeToString m; "Mi"])
                             else m)
                  else None
              | None => None
              end |}) in *.
  assert (T : match env, truthySize memory with
              | None, false => None
              | _, _ => Some container
              end = None <-> env = None /\ truthySize memory = false).
  { destruct env, (truthySize memory); cbn; intuition congruence. }
  assert (C : forall c,
             match env, truthySize memory with
             | None, false => None
             | _, _ => Some container
             end = Some c ->
             (Manifest.memory c = None <-> truthySize memory = false) /\
             (Manifest.env c = None <-> env = None)).
  { intros c Hc.
    assert (c = container) by (destruct env, (truthySize memory); congruence).
    subst c. subst container. cbn [Manifest.memory Manifest.env]. split.
    - destruct memory as [m|]; [|cbn; intuition congruence].
      destruct (truthySize (Some m)); intuition congruence.
    - destruct env; cbn; intuition congruence. }
  destruct (String.eqb eventType "http");
    [|destruct (String.eqb eventType "trigger");
      [destruct (isEmptyStr eventTrigger)|]]; try discriminate H;
    injection H as H; subst f;
    cbn [name namespace Manifest.labels spec Manifest.deps annotations template];
    (split; [reflexivity|]); (split; [reflexivity|]); (split; [reflexivity|]);
    (split; [exact D|]); (split; [exact A|]); (split; [exact T|exact C]).
Qed.

End ManifestBehaviour.

Section ManifestExamples.
Import Manifest.


(** X9 on a [trigger] event without topic. *)
Lemma manifest_event_types_witness :
  ("trigger" = "trigger" /\ isEmptyStr None = true /\
   ErrorObj "You should specify a topic for the trigger event" =
   ErrorObj "You should specify a topic for the trigger event") \/
  ("trigger" <> "http" /\ "trigger" <> "trigger" /\
   ErrorObj "You should specify a topic for the trigger event" =
   ErrorObj (tpl ["Event type "; "trigger"; " is not supported"])).
Proof.
  apply (proj2 (manifest_event_types "hello" "default" "python2.7" None
                  "def hello(): pass" "h.hello" None None None None "trigger"
                  None)).
  reflexivity.
Defined.

(** X10 on the manifest of [hello] with its default event. *)
Lemma manifest_optional_parts_witness :
  template (spec Sample.helloManifest) = None <->
  @None (list (string * string)) = None /\ truthySize None = false.
Proof.
  apply (manifest_optional_parts "hello" "default" "python2.7" None
           "def hello(): pass" "h.hello" None None None None "http" None
           Sample.helloManifest eq_refl).
Defined.

End ManifestExamples.

(** * Further properties of the ingress provisioner *)

Section IngressBehaviour.
Import Manifest Ingress.

Lemma startsWith_absolute (given : string) :
  startsWith (if startsWith given "/" then given else String "/" given) "/" = true.
Proof.
  destruct (startsWith given "/") eqn:E; [exact E|].
  cbn. destruct given; reflexivity.
Qed.

(** X11.  Every ingress document that is posted comes from an [http]
    event and holds one rule with one path.  The host of the rule is the
    given host name or, when none is given, the host of the API followed
    by [.nip.io]; the path is the given path, with [/] put in front unless
    it starts with one; the backend is the service of the function on port
    8080.  So the path starts with [/] and the host is not empty. *)
Theorem ingress_path_is_absolute :
  forall (funcName eventType : string) (eventPath eventHostname : option string)
         (ns : string) (verbose : bool) (apiHostname : string)
         (postErr : option ApiError) (doc : IngressManifest),
    In doc (posts (addIngressRuleIfNecessary funcName eventType eventPath
                     eventHostname ns verbose apiHostname postErr)) ->
    let given := match eventPath with Some p => p | None => EmptyString end in
    let host := match eventHostname with
                | Some (String c h) => String c h
                | _ => (apiHostname ++ ".nip.io")%string
                end in
    let p := if startsWith given "/" then given else String "/" given in
    eventType = "http" /\
    rules doc =
      [{| host := host;
          paths := [{| path := p;
                       backend := {| serviceName := funcName;
                                     servicePort := 8080 |} |}] |}] /\
    startsWith p "/" = true /\ host <> EmptyString.
Proof.
  intros funcName eventType eventPath eventHostname ns verbose apiHostname
    postErr doc.
  cbv zeta. unfold addIngressRuleIfNecessary.
  destruct (String.eqb_spec eventType "http") as [Ht|Ht];
    [|cbn; contradiction].
  assert (Hh : match eventHostname with
               | Some (String c h) => String c h
               | _ => (apiHostname ++ ".nip.io")%string
               end <> EmptyString).
  { destruct eventHostname as [[|d h]|];
      try discriminate; destruct apiHostname; discriminate. }
  assert (Eh : match orElse eventHostname (Some (tpl [apiHostname; ".nip.io"]))
               with
               | Some h => h
               | None => tpl [apiHostname; ".nip.io"]
               end =
               match eventHostname with
               | Some (String c h) => String c h
               | _ => (apiHostname ++ ".nip.io")%string
               end).
  { destruct eventHostname as [[|d h]|]; reflexivity. }
  assert (Ep : (let fpath := match orElse eventPath (Some "/") with
                             | Some p => p
                             | None => "/"
                             end in
                if startsWith fpath "/" then fpath else tpl ["/"; fpath]) =
               (let given := match eventPath with
                             | Some p => p
                             | None => EmptyString
                             end in
                if startsWith given "/" then given else String "/" given)).
  { destruct eventPath as [[|c q]|]; reflexivity. }
  cbv zeta in Ep. rewrite Eh, Ep.
  cbn [andb].
  destruct (_ || _);
    [|destruct verbose; cbn; contradiction].
  intros Hin.
  assert (Hd : doc = getIngressDescription funcName
                       (if startsWith
                             match eventPath with
                             | Some p => p
                             | None => EmptyString
                             end "/"
                        then match eventPath with
                             | Some p => p
                             | None => EmptyString
                             end
                        else String "/"
                               match eventPath with
                               | Some p => p
                               | None => EmptyString
                               end)
                       match eventHostname with
                       | Some (String c h) => String c h
                       | _ => (apiHostname ++ ".nip.io")%string
                       end).
  { destruct postErr; cbn [posts In] in Hin; destruct Hin as [<-|[]];
      reflexivity. }
  subst doc. split; [exact Ht|]. split; [reflexivity|].
  split; [apply startsWith_absolute|exact Hh].
Qed.

(** X12.  The provisioner always settles: its promise is rejected exactly
    when a document was posted and the POST failed, with a message that
    names the function and quotes the error; otherwise it is fulfilled. *)
Theorem ingress_always_settles :
  forall (funcName eventType : string) (eventPath eventHostname : option string)
         (ns : string) (verbose : bool) (apiHostname : string)
         (postErr : option ApiError),
    let r := addIngressRuleIfNecessary funcName eventType eventPath
               eventHostname ns verbose apiHostname postErr in
    outcome r =
      match posts r, postErr with
      | _ :: _, Some err =>
          Rejected (Str (tpl ["Unable to deploy the function "; funcName;
                              " in the given path. "; "Received: ";
                              message err]))
      | _, _ => Fulfilled tt
      end /\
    outcome r <> Pending.
Proof.
  intros funcName eventType eventPath eventHostname ns verbose apiHostname
    postErr. cbv zeta. unfold addIngressRuleIfNecessary.
  destruct (String.eqb eventType "http" && _).
  - destruct postErr; cbn; (split; [reflexivity|discriminate]).
  - cbn. split; [reflexivity|discriminate].
Qed.

End IngressBehaviour.

Section IngressExamples.
Import Manifest Ingress.

(** X11 on the document posted for an [http] event on path [foo]. *)
Lemma ingress_path_is_absolute_witness :
  rules (getIngressDescription "hello" "/foo" "1.2.3.4.nip.io") =
    [{| host := "1.2.3.4.nip.io";
        paths := [{| path := "/foo";
                     backend := {| serviceName := "hello";
                                   servicePort := 8080 |} |}] |}].
Proof.
  refine (proj1 (proj2 (ingress_path_is_absolute "hello" "http" (Some "foo")
                          None "default" false "1.2.3.4" None _ _))).
  left. reflexivity.
Defined.

End IngressExamples.

(** * Further properties of the batch coordinator *)

Section Scheduling.
Import Manifest Batch Plan.

Variables (h : Helpers) (runtime : string) (opts : Options.t).

(** The builder accepts exactly the supported events. *)
Lemma getFunctionDescription_supported (funcName ns rt : string)
    (deps : option string) (content handler : string) (desc : option string)
    (labels env : option (list (string * string))) (memory : option Size)
    (e : Event.t) :
  if supported e
  then exists f,
         getFunctionDescription funcName ns rt deps content handler desc labels
           env memory (Event.type e) (Event.trigger e) = Ok f
  else exists err,
         getFunctionDescription funcName ns rt deps content handler desc labels
           env memory (Event.type e) (Event.trigger e) = Throw err.
Proof.
  unfold supported, getFunctionDescription.
  destruct (String.eqb (Event.type e) "http"); cbn [orb].
  - eexists. reflexivity.
  - destruct (String.eqb (Event.type e) "trigger"); cbn [andb].
    + destruct (isEmptyStr (Event.trigger e)); cbn [negb].
      * eexists. reflexivity.
      * eexists. reflexivity.
    + eexists. reflexivity.
Qed.

(** A manifest that is built carries the name it was asked for. *)
Lemma getFunctionDescription_name (funcName ns rt : string)
    (deps : option string) (content handler : string) (desc : option string)
    (labels env : option (list (string * string))) (memory : option Size)
    (eventType : string) (eventTrigger : option string) (f : FunctionManifest) :
  getFunctionDescription funcName ns rt deps content handler desc labels env
    memory eventType eventTrigger = Ok f ->
  name f = funcName.
Proof.
  unfold getFunctionDescription. intros H.
  destruct (String.eqb eventType "http");
    [|destruct (String.eqb eventType "trigger");
      [destruct (isEmptyStr eventTrigger)|]]; try discriminate H;
    injection H as H; subst f; reflexivity.
Qed.

(** The descriptor and the event an operation was scheduled for. *)
Lemma planned_In (functions : list Description.t) (d : Description.t)
    (e : Event.t) :
  In (d, e) (planned functions) ->
  hasHandler d = true /\ In d functions /\ In e (eventsOf d).
Proof.
  unfold planned. rewrite in_flat_map. intros (d' & Hd & Hin).
  destruct (hasHandler d') eqn:Hh; [|contradiction].
  apply in_map_iff in Hin. destruct Hin as (e' & E & He).
  injection E as -> ->. auto.
Qed.

Lemma planned_length (functions : list Description.t) :
  List.length (planned functions) = operations functions.
Proof.
  unfold planned, operations.
  induction functions as [|d rest IH]; [reflexivity|].
  cbn [flat_map map]. rewrite length_app, IH. simpl list_sum.
  destruct (hasHandler d); [rewrite length_map|]; reflexivity.
Qed.

Lemma eachEvent_supported (d : Description.t) (events : list Event.t) :
  forall acc,
    forallb supported events = true ->
    exists new,
      eachEvent h runtime opts d events acc =
        {| ops := ops acc ++ new; skipped := skipped acc;
           thrown := thrown acc |} /\
      map (fun op => (opDescription op, opEvent op)) new = map (pair d) events /\
      Forall (fun op => builtFor h runtime opts (opDescription op) (opEvent op) op)
        new.
Proof.
  induction events as [|e rest IH]; intros acc S; cbn [eachEvent].
  - exists []. rewrite app_nil_r. destruct acc; auto.
  - cbn [forallb] in S. apply andb_prop in S. destruct S as [Se Sr].
    match goal with |- context [getFunctionDescription ?a ?b ?c ?d0 ?e0 ?f0 ?g ?i ?j ?k _ _] =>
      pose proof (getFunctionDescription_supported a b c d0 e0 f0 g i j k e) as G
    end.
    rewrite Se in G. destruct G as (f & G). rewrite G.
    match goal with |- context [eachEvent h runtime opts d rest ?a] =>
      destruct (IH a Sr) as (new & E & L & W) end.
    rewrite E. cbn [ops skipped thrown]. eexists (_ :: new).
    split; [rewrite <- app_assoc; reflexivity|].
    split; [cbn [map opDescription opEvent]; rewrite L; reflexivity|].
    constructor; [|exact W].
    unfold builtFor, manifestOf, namespaceOf.
    cbn [opDescription opEvent funcs connNamespace]. auto.
Qed.

Lemma eachEvent_unsupported (d : Description.t) (events : list Event.t) :
  forall acc,
    forallb supported events = false ->
    exists err, thrown (eachEvent h runtime opts d events acc) = Some err.
Proof.
  induction events as [|e rest IH]; intros acc S; cbn [eachEvent].
  - discriminate S.
  - cbn [forallb] in S.
    match goal with |- context [getFunctionDescription ?a ?b ?c ?d0 ?e0 ?f0 ?g ?i ?j ?k _ _] =>
      pose proof (getFunctionDescription_supported a b c d0 e0 f0 g i j k e) as G
    end.
    destruct (supported e); cbn [andb] in S.
    + destruct G as (f & G). rewrite G. apply IH. exact S.
    + destruct G as (err & G). rewrite G. exists err. reflexivity.
Qed.

Lemma eachFunction_deployable (functions : list Description.t) :
  forall acc,
    thrown acc = None ->
    deployable functions = true ->
    exists new,
      eachFunction h runtime opts functions acc =
        {| ops := ops acc ++ new;
           skipped := skipped acc ++
                      map skipLine (filter (fun d => negb (hasHandler d)) functions);
           thrown := None |} /\
      map (fun op => (opDescription op, opEvent op)) new = planned functions /\
      Forall (fun op => builtFor h runtime opts (opDescription op) (opEvent op) op)
        new.
Proof.
  induction functions as [|d rest IH]; intros acc T D; cbn [eachFunction].
  - exists []. cbn. rewrite !app_nil_r. destruct acc; cbn in *; subst; auto.
  - unfold deployable in D. cbn [forallb] in D. apply andb_prop in D.
    destruct D as [Dd Dr]. fold (deployable rest) in Dr.
    unfold planned. cbn [flat_map filter]. fold (planned rest).
    fold (hasHandler d).
    destruct (hasHandler d) eqn:Hd; cbn [negb orb] in *.
    + fold (eventsOf d).
      destruct (eachEvent_supported d (eventsOf d) acc Dd) as (evs & E & L & W).
      rewrite E. cbn [thrown]. rewrite T.
      match goal with |- context [eachFunction h runtime opts rest ?a] =>
        destruct (IH a eq_refl Dr) as (new & F & Ln & Wn) end.
      rewrite F. cbn [ops skipped]. exists (evs ++ new).
      split; [rewrite app_assoc; reflexivity|].
      split; [rewrite map_app, L, Ln; reflexivity|].
      apply Forall_app. split; assumption.
    + match goal with |- context [eachFunction h runtime opts rest ?a] =>
        destruct (IH a T Dr) as (new & F & Ln & Wn) end.
      rewrite F. cbn [ops skipped map app]. exists new.
      split; [rewrite <- app_assoc; reflexivity|].
      split; assumption.
Qed.

Lemma eachFunction_undeployable (functions : list Description.t) :
  forall acc,
    thrown acc = None ->
    deployable functions = false ->
    exists err, thrown (eachFunction h runtime opts functions acc) = Some err.
Proof.
  induction functions as [|d rest IH]; intros acc T D; cbn [eachFunction].
  - discriminate D.
  - unfold deployable in D. cbn [forallb] in D. fold (deployable rest) in D.
    fold (hasHandler d). fold (hasHandler d) in D.
    destruct (hasHandler d) eqn:Hd; cbn [negb orb] in D.
    + fold (eventsOf d).
      destruct (forallb supported (eventsOf d)) eqn:S; cbn [andb] in D.
      * destruct (eachEvent_supported d (eventsOf d) acc S) as (evs & E & L & W).
        rewrite E. cbn [thrown]. rewrite T. apply IH; [reflexivity|exact D].
      * destruct (eachEvent_unsupported d (eventsOf d) acc S) as (err & E).
        rewrite E. exists err. exact E.
    + apply IH; [exact T|exact D].
Qed.

(** X13.  When every event of every descriptor with a handler is
    supported, the executor schedules exactly one operation per such event
    (the default [http] event for a descriptor without events), in the
    order of the descriptors and of their events; each operation holds the
    manifest built for its descriptor and its event, named after the
    descriptor, and the namespace of the descriptor's client.  It logs one
    line per descriptor without handler and throws nothing.  Otherwise it
    throws. *)
Theorem schedule_counts_operations :
  forall (functions : list Description.t),
    let sch := schedule h runtime opts functions in
    (deployable functions = true ->
       thrown sch = None /\
       List.length (ops sch) = operations functions /\
       skipped sch =
         map skipLine (filter (fun d => negb (hasHandler d)) functions) /\
       map (fun op => (opDescription op, opEvent op)) (ops sch) =
         planned functions /\
       Forall (fun op => hasHandler (opDescription op) = true /\
                         In (opDescription op) functions /\
                         In (opEvent op) (eventsOf (opDescription op)) /\
                         name (funcs op) = Description.id (opDescription op) /\
                         builtFor h runtime opts (opDescription op) (opEvent op) op)
         (ops sch)) /\
    (deployable functions = false -> exists err, thrown sch = Some err).
Proof.
  intros functions sch. split; intros D.
  - destruct (eachFunction_deployable functions
                {| ops := []; skipped := []; thrown := None |} eq_refl D)
      as (new & E & L & W).
    subst sch. unfold schedule. rewrite E. cbn [ops skipped thrown app].
    split; [reflexivity|].
    split; [rewrite <- planned_length, <- L, length_map; reflexivity|].
    split; [reflexivity|]. split; [exact L|].
    apply Forall_forall. intros op Hin.
    assert (P : In (opDescription op, opEvent op) (planned functions)).
    { rewrite <- L. apply in_map_iff. exists op. auto. }
    apply planned_In in P. destruct P as (P1 & P2 & P3).
    rewrite Forall_forall in W. specialize (W op Hin).
    repeat split; try assumption; try apply W.
    destruct W as (_ & _ & M & _). unfold manifestOf in M.
    apply getFunctionDescription_name in M. exact M.
  - apply eachFunction_undeployable; [reflexivity|exact D].
Qed.

(** A batch of descriptors without handler schedules nothing. *)
Lemma schedule_without_handler (functions : list Description.t) :
  forallb (fun d => negb (hasHandler d)) functions = true ->
  schedule h runtime opts functions =
  {| ops := []; skipped := map skipLine functions; thrown := None |}.
Proof.
  intros N. unfold schedule.
  assert (G : forall acc,
             eachFunction h runtime opts functions acc =
             {| ops := ops acc; skipped := skipped acc ++ map skipLine functions;
                thrown := thrown acc |}).
  { induction functions as [|d rest IH]; intros acc; cbn [eachFunction map].
    - rewrite app_nil_r. destruct acc; reflexivity.
    - cbn [forallb] in N. apply andb_prop in N. destruct N as [Nd Nr].
      unfold hasHandler in Nd. apply negb_true_iff in Nd. rewrite Nd.
      rewrite (IH Nr). cbn [ops skipped thrown]. rewrite <- app_assoc.
      reflexivity. }
  rewrite G. reflexivity.
Qed.

(** X14.  A batch in which no descriptor has a handler, the empty batch
    included, sends no request and records no error but logs one line per
    descriptor; its promise is never settled, whatever the cluster
    answers. *)
Theorem handlerless_batch_never_settles :
  forall (functions : list Description.t) (completions : list (nat * OpEnv)),
    forallb (fun d => negb (hasHandler d)) functions = true ->
    deploy h functions runtime opts completions =
    {| errors := []; counter := 0; outcome := Pending;
       logged := map skipLine functions; exitCode := None; requests := [];
       ingressCalls := []; ingressPosts := []; uncaught := None |}.
Proof.
  intros functions completions N. unfold deploy.
  rewrite (schedule_without_handler functions N). cbn [ops started thrown skipped].
  induction completions as [|c rest IH]; cbn [fold_left]; [reflexivity|].
  cbn [uncaught]. destruct (fst c); exact IH.
Qed.

End Scheduling.

Section Settlement.
Import Manifest Submitter Batch Plan Effect.

Variables (h : Helpers) (functions : list Description.t) (runtime : string)
          (opts : Options.t).

Lemma chainEffect_refl (n : Z) (s : State) : chainEffect n s s.
Proof.
  exists []. rewrite app_nil_r. auto.
Qed.

Lemma chainEffect_core (n : Z) (s t s' : State) :
  errors t = errors s -> counter t = counter s -> outcome t = outcome s ->
  chainEffect n t s' -> chainEffect n s s'.
Proof.
  intros E C O (new & H1 & H2 & H3). exists new.
  rewrite <- E, <- C, <- O. auto.
Qed.

Lemma onProvisioned_effect (n : Z) (s : State) :
  chainEffect n s (onProvisioned n s).
Proof.
  exists []. rewrite app_nil_r. split; [reflexivity|]. split; [auto|].
  right. split; reflexivity.
Qed.

Lemma afterProvision_effect (n : Z) (p : Promise unit) (s : State) :
  chainEffect n s (afterProvision n p s).
Proof.
  destruct p as [|v|e]; cbn [afterProvision].
  - apply chainEffect_refl.
  - apply onProvisioned_effect.
  - exists [e]. cbn. auto.
Qed.

Lemma onDeployed_effect (n : Z) (op : Op) (env : OpEnv) (redeployed : bool)
    (deployed : option bool) (s : State) :
  chainEffect n s (onDeployed n opts h op env redeployed deployed s).
Proof.
  unfold onDeployed. destruct (negb _ || redeployed).
  - apply afterProvision_effect.
  - eapply chainEffect_core; [| | |apply afterProvision_effect]; reflexivity.
Qed.

Lemma afterDeployment_effect (n : Z) (op : Op) (env : OpEnv) (redeployed : bool)
    (d : Promise bool) (s : State) :
  chainEffect n s (afterDeployment n opts h op env redeployed d s).
Proof.
  destruct d as [|b|e]; cbn [afterDeployment].
  - apply chainEffect_refl.
  - apply onDeployed_effect.
  - unfold onDeployed. cbn [negb orb]. cbn [resolve afterProvision].
    exists [e]. cbn. split; [reflexivity|]. split; [auto|]. right.
    split; reflexivity.
Qed.

(** The chain of one operation appends at most one error and counts at
    most one operation; the promise changes only when the count reaches
    the total. *)
Lemma onFunctionsInfo_effect (n : Z) (op : Op) (env : OpEnv) (s : State) :
  chainEffect n s (onFunctionsInfo n opts h op env s).
Proof.
  unfold onFunctionsInfo. destruct (listing env) as [e|items].
  - eapply chainEffect_core; [| | |apply chainEffect_refl]; reflexivity.
  - destruct (existingSameFunction items (funcs op)).
    + eapply chainEffect_core; [| | |apply afterDeployment_effect]; reflexivity.
    + destruct (existingFunction items (funcs op) && Options.force opts);
        (eapply chainEffect_core; [| | |apply afterDeployment_effect]);
        reflexivity.
Qed.

Lemma step_effect (s : State) (c : nat * OpEnv) :
  chainEffect (Z.of_nat (List.length functions)) s
    (step h functions runtime opts s c).
Proof.
  unfold step. destruct (uncaught s); [apply chainEffect_refl|].
  destruct (nth_error _ (fst c)); [|apply chainEffect_refl].
  apply onFunctionsInfo_effect.
Qed.

Lemma deploy_app (cs more : list (nat * OpEnv)) :
  deploy h functions runtime opts (cs ++ more) =
  fold_left (step h functions runtime opts) more
    (deploy h functions runtime opts cs).
Proof.
  unfold deploy. rewrite fold_left_app. reflexivity.
Qed.

Lemma settlement_settled (n : Z) (errs : list Reason) (c : Z) (p : Promise unit) :
  p <> Pending -> settlement n errs c p = p.
Proof.
  intros N. unfold settlement. destruct (c =? n); [|reflexivity].
  destruct errs, p; try reflexivity; contradiction.
Qed.

Lemma fold_outcome_final (l : list (nat * OpEnv)) :
  forall s, outcome s <> Pending ->
            outcome (fold_left (step h functions runtime opts) l s) = outcome s.
Proof.
  induction l as [|c l IH]; intros s N; cbn [fold_left]; [reflexivity|].
  destruct (step_effect s c) as (new & _ & _ & [[_ O]|[_ O]]).
  - rewrite IH; rewrite O; auto.
  - rewrite settlement_settled in O by exact N. rewrite IH; rewrite O; auto.
Qed.

(** X15.  An unsupported event rejects the batch on the spot: when the
    executor throws, the promise of [deploy] is rejected with the thrown
    error and stays so, whatever the operations scheduled before the throw
    do later. *)
Theorem unsupported_event_rejects_batch :
  forall (e : Reason) (completions : list (nat * OpEnv)),
    thrown (schedule h runtime opts functions) = Some e ->
    outcome (deploy h functions runtime opts completions) = Rejected e.
Proof.
  intros e completions T.
  change completions with ([] ++ completions). rewrite deploy_app.
  assert (S0 : outcome (deploy h functions runtime opts []) = Rejected e).
  { unfold deploy. cbn [fold_left started outcome]. rewrite T. reflexivity. }
  rewrite fold_outcome_final; rewrite S0; [reflexivity|discriminate].
Qed.

(** The promise of a batch settles once: when it is settled after some
    completions, completions that follow leave it as it is. *)
Lemma batch_outcome_is_final :
  forall (cs more : list (nat * OpEnv)),
    outcome (deploy h functions runtime opts cs) <> Pending ->
    outcome (deploy h functions runtime opts (cs ++ more)) =
    outcome (deploy h functions runtime opts cs).
Proof.
  intros cs more N. rewrite deploy_app. apply fold_outcome_final. exact N.
Qed.

Lemma fold_counter_bound (l : list (nat * OpEnv)) :
  forall s n,
    counter s <= n -> (outcome s <> Pending -> Z.of_nat (List.length functions) <= counter s) ->
    let s' := fold_left (step h functions runtime opts) l s in
    counter s' <= n + Z.of_nat (List.length l) /\
    (outcome s' <> Pending -> Z.of_nat (List.length functions) <= counter s').
Proof.
  induction l as [|c l IH]; intros s n C O; cbn [fold_left List.length].
  - cbv zeta. split; [lia|exact O].
  - destruct (step_effect s c) as (new & _ & _ & [[C' O']|[C' O']]).
    + destruct (IH (step h functions runtime opts s c) n) as [I1 I2].
      * lia.
      * rewrite C', O'. exact O.
      * cbv zeta in *. split; [lia|exact I2].
    + destruct (IH (step h functions runtime opts s c) (n + 1)) as [I1 I2].
      * lia.
      * rewrite O'. unfold settlement.
        destruct (Z.eqb_spec (counter (step h functions runtime opts s c))
                    (Z.of_nat (List.length functions)))
          as [Q|Q]; [lia|].
        intros N. specialize (O N). lia.
      * cbv zeta in *. split; [lia|exact I2].
Qed.

(** X16.  A batch whose executor did not throw is not settled before as
    many operations have completed as there are descriptors. *)
Theorem batch_pending_before_total :
  forall (completions : list (nat * OpEnv)),
    thrown (schedule h runtime opts functions) = None ->
    (List.length completions < List.length functions)%nat ->
    outcome (deploy h functions runtime opts completions) = Pending.
Proof.
  intros completions T L.
  change completions with ([] ++ completions). rewrite deploy_app.
  set (s0 := deploy h functions runtime opts []).
  assert (O0 : outcome s0 = Pending).
  { subst s0. unfold deploy. cbn [fold_left started outcome]. rewrite T.
    reflexivity. }
  destruct (fold_counter_bound completions s0 0) as [B1 B2].
  - subst s0. unfold deploy. cbn. lia.
  - intros N. congruence.
  - cbv zeta in *.
    destruct (outcome (fold_left (step h functions runtime opts) completions s0))
      eqn:E; [reflexivity| |];
      (assert (Z.of_nat (List.length functions) <=
               counter (fold_left (step h functions runtime opts) completions s0))
         by (apply B2; discriminate));
      lia.
Qed.

(** X17.  When the chain of an operation brings the counter of a pending
    batch to the number of descriptors, the batch is settled there: it is
    fulfilled when no error was collected and rejected with the aggregate
    of all collected errors otherwise. *)
Theorem batch_settles_at_total :
  forall (n : Z) (op : Op) (env : OpEnv) (s : State),
    let s' := onFunctionsInfo n opts h op env s in
    outcome s = Pending -> counter s' <> counter s -> counter s' = n ->
    outcome s' = match errors s' with
                 | [] => Fulfilled tt
                 | _ :: _ => Rejected (aggregate (errors s'))
                 end.
Proof.
  intros n op env s s' P C T.
  destruct (onFunctionsInfo_effect n op env s) as (new & _ & _ & [[C' _]|[_ O]]).
  - contradiction.
  - fold s' in O. rewrite O. unfold settlement. rewrite T, Z.eqb_refl, P.
    destruct (errors s'); reflexivity.
Qed.

Lemma fold_errors_grow (l : list (nat * OpEnv)) :
  forall s,
    exists new,
      errors (fold_left (step h functions runtime opts) l s) = errors s ++ new /\
      (List.length new <= List.length l)%nat.
Proof.
  induction l as [|c l IH]; intros s; cbn [fold_left List.length].
  - exists []. rewrite app_nil_r. auto.
  - destruct (step_effect s c) as (new & E & L & _).
    destruct (IH (step h functions runtime opts s c)) as (new' & E' & L').
    exists (new ++ new'). rewrite E', E, <- app_assoc. split; [reflexivity|].
    rewrite length_app. lia.
Qed.

(** X18.  Collected errors are never dropped: the error list after more
    completions extends the list before them, by at most one error per
    completion. *)
Theorem errors_only_grow :
  forall (cs more : list (nat * OpEnv)),
    exists new,
      errors (deploy h functions runtime opts (cs ++ more)) =
        errors (deploy h functions runtime opts cs) ++ new /\
      (List.length new <= List.length more)%nat.
Proof.
  intros cs more. rewrite deploy_app. apply fold_errors_grow.
Qed.

End Settlement.

(** * Properties of the operations of a batch *)

Section Strings.

Lemma append_nil_r (s : string) : (s ++ EmptyString)%string = s.
Proof.
  induction s as [|c s IH]; cbn; [reflexivity|rewrite IH; reflexivity].
Qed.

Lemma append_assoc (a b c : string) :
  ((a ++ b) ++ c)%string = (a ++ b ++ c)%string.
Proof.
  induction a as [|x a IH]; cbn; [reflexivity|rewrite IH; reflexivity].
Qed.

Lemma startsWith_append (p rest : string) : startsWith (p ++ rest) p = true.
Proof.
  induction p as [|c p IH]; cbn; [destruct rest; reflexivity|].
  rewrite Ascii.eqb_refl. exact IH.
Qed.

Lemma includes_unfold (pat s : string) :
  includes pat s =
  if startsWith s pat then true
  else match s with
       | EmptyString => false
       | String _ rest => includes pat rest
       end.
Proof.
  destruct s; reflexivity.
Qed.

(** A string that holds [pat] between two others includes it. *)
Lemma includes_middle (pat a b : string) :
  includes pat (a ++ pat ++ b) = true.
Proof.
  induction a as [|c a IH].
  - cbn [append]. rewrite includes_unfold, startsWith_append. reflexivity.
  - cbn [append]. rewrite includes_unfold.
    destruct (startsWith _ pat); [reflexivity|exact IH].
Qed.

Lemma concat_In (sep x : string) (l : list string) :
  In x l -> exists a b, String.concat sep l = (a ++ x ++ b)%string.
Proof.
  induction l as [|y l IH]; [contradiction|].
  intros [->|Hin].
  - exists EmptyString. destruct l as [|z l].
    + exists EmptyString. cbn. rewrite append_nil_r. reflexivity.
    + exists (sep ++ String.concat sep (z :: l))%string. reflexivity.
  - destruct l as [|z l]; [contradiction|].
    destruct (IH Hin) as (a & b & E).
    exists (y ++ sep ++ a)%string, b.
    change (String.concat sep (y :: z :: l))
      with (y ++ sep ++ String.concat sep (z :: l))%string.
    rewrite E, !append_assoc. reflexivity.
Qed.

End Strings.

Section Aggregate.
Import Batch.

(** X19.  The aggregated error of a batch is an [Error] whose message
    starts with the fixed heading and includes the text of every
    collected error. *)
Theorem aggregate_lists_every_message :
  forall (errors : list Reason) (e : Reason),
    In e errors ->
    exists msg,
      aggregate errors = ErrorObj msg /\
      startsWith msg "Found errors while deploying the given functions:" = true /\
      includes (reasonToString e) msg = true.
Proof.
  intros errors e Hin. unfold aggregate. eexists. split; [reflexivity|].
  set (heading := "Found errors while deploying the given functions:").
  assert (T : forall body, tpl [heading; nl; body] = (heading ++ nl ++ body)%string)
    by reflexivity.
  rewrite T. split; [apply startsWith_append|].
  destruct (concat_In nl (reasonToString e) (map reasonToString errors))
    as (a & b & E).
  { apply in_map. exact Hin. }
  rewrite E.
  replace (heading ++ nl ++ a ++ reasonToString e ++ b)%string
    with ((heading ++ nl ++ a) ++ reasonToString e ++ b)%string
    by (rewrite !append_assoc; reflexivity).
  apply includes_middle.
Qed.

End Aggregate.

Section AggregateExamples.
Import Batch.

(** X19 on a batch that collected two errors. *)
Lemma aggregate_lists_every_message_witness :
  exists msg,
    aggregate [ErrorObj "first"; Str "second"] = ErrorObj msg /\
    startsWith msg "Found errors while deploying the given functions:" = true /\
    includes (reasonToString (Str "second")) msg = true.
Proof.
  apply (aggregate_lists_every_message [ErrorObj "first"; Str "second"]
           (Str "second")).
  right. left. reflexivity.
Defined.

End AggregateExamples.

Section Classification.
Import Manifest Submitter Batch Plan Effect.

Lemma list_eqb_eq {A} (eqb : A -> A -> bool) :
  (forall x y, eqb x y = true <-> x = y) ->
  forall a b, list_eqb eqb a b = true <-> a = b.
Proof.
  intros H. induction a as [|x a IH]; intros [|y b]; cbn;
    try (split; congruence).
  rewrite andb_true_iff, H, IH. split; [intros [-> ->]|intros [= -> ->]]; auto.
Qed.

Lemma option_eqb_eq {A} (eqb : A -> A -> bool) :
  (forall x y, eqb x y = true <-> x = y) ->
  forall a b, option_eqb eqb a b = true <-> a = b.
Proof.
  intros H [x|] [y|]; cbn; try (split; congruence).
  rewrite H. split; congruence.
Qed.

Lemma envVar_eqb_eq (a b : EnvVar) : envVar_eqb a b = true <-> a = b.
Proof.
  unfold envVar_eqb. rewrite andb_true_iff, !String.eqb_eq.
  destruct a, b; cbn. split; [intros [-> ->]|intros [= -> ->]]; auto.
Qed.

Lemma size_eqb_eq (a b : Size) : size_eqb a b = true <-> a = b.
Proof.
  destruct a as [x|x], b as [y|y]; cbn [size_eqb];
    try (split; [discriminate|congruence]).
  - rewrite Z.eqb_eq. split; congruence.
  - rewrite String.eqb_eq. split; congruence.
Qed.

Lemma container_eqb_eq (a b : Container) : container_eqb a b = true <-> a = b.
Proof.
  unfold container_eqb.
  rewrite !andb_true_iff, String.eqb_eq,
    (option_eqb_eq _ (list_eqb_eq _ envVar_eqb_eq)),
    (option_eqb_eq _ size_eqb_eq).
  destruct a, b; cbn.
  split; [intros [[-> ->] ->]|intros [= -> -> ->]]; auto.
Qed.

(** The comparison of two specs is equality of their fields. *)
Lemma spec_isEqual_eq (a b : Spec) : spec_isEqual a b = true <-> a = b.
Proof.
  unfold spec_isEqual.
  rewrite !andb_true_iff, !String.eqb_eq,
    (option_eqb_eq _ container_eqb_eq), (option_eqb_eq _ String.eqb_eq).
  destruct a, b; cbn.
  split; [intros [[[[[[-> ->] ->] ->] ->] ->] ->]
         |intros [= -> -> -> -> -> -> ->]]; auto 10.
Qed.

(** X20.  The listing holds the same function exactly when one of its
    items has the name of the manifest and a spec equal to the manifest's,
    field by field; the same function is in particular an existing one. *)
Theorem same_function_is_name_and_spec :
  forall (items : list Existing) (f : FunctionManifest),
    (existingSameFunction items f = true <->
     exists item, In item items /\ itemName item = name f /\
                  itemSpec item = spec f) /\
    (existingFunction items f = true <->
     exists item, In item items /\ itemName item = name f) /\
    (existingSameFunction items f = true -> existingFunction items f = true).
Proof.
  intros items f.
  assert (S : existingSameFunction items f = true <->
              exists item, In item items /\ itemName item = name f /\
                           itemSpec item = spec f).
  { unfold existingSameFunction. rewrite existsb_exists.
    split; intros (item & Hin & H); exists item; (split; [exact Hin|]).
    - apply andb_prop in H. destruct H as [H1 H2].
      apply String.eqb_eq in H1. apply spec_isEqual_eq in H2. auto.
    - destruct H as [H1 H2]. apply andb_true_intro.
      split; [apply String.eqb_eq|apply spec_isEqual_eq]; assumption. }
  assert (E : existingFunction items f = true <->
              exists item, In item items /\ itemName item = name f).
  { unfold existingFunction. rewrite existsb_exists.
    split; intros (item & Hin & H); exists item; (split; [exact Hin|]);
      apply String.eqb_eq; exact H. }
  split; [exact S|]. split; [exact E|].
  intros H. apply E. apply S in H. destruct H as (item & Hin & Hn & _).
  exists item. auto.
Qed.

Variables (n : Z) (opts : Options.t) (h : Helpers).

Lemma afterProvision_frame (p : Promise unit) (s : State) :
  let s' := afterProvision n p s in
  requests s' = requests s /\ logged s' = logged s /\
  exitCode s' = exitCode s /\ uncaught s' = uncaught s /\
  ingressPosts s' = ingressPosts s.
Proof.
  destruct p; cbn; auto.
Qed.

(** Settling the deployment sends no request to the functions resource. *)
Lemma afterDeployment_requests (op : Op) (env : OpEnv) (redeployed : bool)
    (d : Promise bool) (s : State) :
  requests (afterDeployment n opts h op env redeployed d s) = requests s.
Proof.
  destruct d as [|b|e]; cbn [afterDeployment]; [reflexivity| |];
    unfold onDeployed; destruct (negb _ || redeployed);
    match goal with |- context [afterProvision n ?p ?t] =>
      rewrite (proj1 (afterProvision_frame p t)) end; reflexivity.
Qed.

(** X21.  A function whose name and spec are already in the listing is
    skipped: no request is sent, no ingress is provisioned, no error is
    recorded; one line is logged and the operation is counted. *)
Theorem unchanged_function_is_skipped :
  forall (op : Op) (env : OpEnv) (s : State) (items : list Existing)
         (item : Existing),
    listing env = ListOk items -> In item items ->
    itemName item = name (funcs op) -> itemSpec item = spec (funcs op) ->
    let s' := onFunctionsInfo n opts h op env s in
    requests s' = requests s /\ ingressCalls s' = ingressCalls s /\
    ingressPosts s' = ingressPosts s /\ errors s' = errors s /\
    counter s' = counter s + 1 /\
    logged s' = logged s ++
      [tpl ["Function "; Description.id (opDescription op);
            " has not changed. Skipping deployment"]].
Proof.
  intros op env s items item L Hin Hn Hs s'. subst s'.
  unfold onFunctionsInfo. rewrite L.
  assert (Same : existingSameFunction items (funcs op) = true).
  { unfold existingSameFunction. apply existsb_exists. exists item.
    split; [exact Hin|]. apply andb_true_intro.
    split; [apply String.eqb_eq|apply spec_isEqual_eq]; assumption. }
  rewrite Same. cbn [resolve afterDeployment]. unfold onDeployed.
  cbn [negb orb afterProvision]. unfold onProvisioned.
  cbn [requests ingressCalls ingressPosts errors counter logged].
  repeat split; reflexivity.
Qed.

Lemma submission_request (body : FunctionManifest) (ns : string) (v : bool)
    (now : Z) (exit0 : option Z) (err : option ApiError)
    (responses : list Poller.PodsResponse) :
  request (deployFunctionAndWait body ns v now exit0 err responses) = Post body /\
  request (redeployFunctionAndWait body ns v now exit0 err responses) =
    Put (name body) body.
Proof.
  unfold deployFunctionAndWait, redeployFunctionAndWait, startPoll.
  destruct err as [e|]; [destruct (code e =? 409)|]; split; reflexivity.
Qed.

(** X22.  For a function that is not in the listing with the same spec,
    exactly one request is sent: a PUT under the name of the function when
    the name is listed and the force option is set, a POST of the manifest
    otherwise. *)
Theorem one_request_per_changed_function :
  forall (op : Op) (env : OpEnv) (s : State) (items : list Existing),
    listing env = ListOk items ->
    existingSameFunction items (funcs op) = false ->
    requests (onFunctionsInfo n opts h op env s) =
    requests s ++
    [if existingFunction items (funcs op) && Options.force opts
     then Put (name (funcs op)) (funcs op)
     else Post (funcs op)].
Proof.
  intros op env s items L Same. unfold onFunctionsInfo. rewrite L, Same.
  destruct (existingFunction items (funcs op) && Options.force opts);
    rewrite afterDeployment_requests; unfold afterSubmission;
    cbn [requests];
    match goal with |- context [request (?f ?b ?ns ?v ?t ?x ?e ?r)] =>
      destruct (submission_request b ns v t x e r) as [R1 R2] end;
    rewrite ?R1, ?R2; reflexivity.
Qed.

(** X23.  A refused submission is recorded and counted: when the PUT of a
    forced update fails, or the POST fails with a code other than 409,
    the error with the code and the message of the cluster is appended to
    the error list, the operation is counted and no ingress is
    provisioned. *)
Theorem refused_submission_is_recorded :
  forall (op : Op) (env : OpEnv) (s : State) (items : list Existing)
         (err : ApiError),
    listing env = ListOk items ->
    existingSameFunction items (funcs op) = false ->
    submitErr env = Some err ->
    existingFunction items (funcs op) && Options.force opts = true \/
    code err <> 409 ->
    let s' := onFunctionsInfo n opts h op env s in
    errors s' = errors s ++
      [ErrorObj
         (tpl [(if existingFunction items (funcs op) && Options.force opts
                then "Unable to update the function "
                else "Unable to deploy the function ");
               name (funcs op); ". Received:"; nl;
               "  Code: "; showZ (code err); nl;
               "  Message: "; message err])] /\
    counter s' = counter s + 1 /\
    ingressCalls s' = ingressCalls s /\ ingressPosts s' = ingressPosts s.
Proof.
  intros op env s items err L Same E C s'. subst s'.
  unfold onFunctionsInfo. rewrite L, Same, E.
  destruct (existingFunction items (funcs op) && Options.force opts).
  - unfold redeployFunctionAndWait. cbn [Submitter.outcome reject].
    cbn [afterDeployment]. unfold onDeployed. cbn [negb orb resolve].
    cbn [afterProvision]. unfold onProvisioned, pushError, afterSubmission.
    cbn [errors counter ingressCalls ingressPosts]. repeat split; reflexivity.
  - destruct C as [C|C]; [discriminate C|].
    unfold deployFunctionAndWait.
    destruct (Z.eqb_spec (code err) 409) as [Q|_]; [contradiction|].
    cbn [Submitter.outcome reject].
    cbn [afterDeployment]. unfold onDeployed. cbn [negb orb resolve].
    cbn [afterProvision]. unfold onProvisioned, pushError, afterSubmission.
    cbn [errors counter ingressCalls ingressPosts]. repeat split; reflexivity.
Qed.

End Classification.

Section HealthyCluster.
Import Manifest Poller Submitter Batch Plan Effect Observation.

(** Both submitters on an accepted request followed by two listings on
    which every pod of the function is ready. *)
Lemma submit_two_ready (request : Request) (call : PollCall)
    (before : list string) (exit0 : option Z) (r1 r2 : PodsResponse)
    (more : list PodsResponse) :
  fullyReady (pollFuncName call) (pollRequestMoment call) r1 = true ->
  fullyReady (pollFuncName call) (pollRequestMoment call) r2 = true ->
  let sub := startPoll request call before exit0 (r1 :: r2 :: more) in
  Submitter.outcome sub = Fulfilled true /\
  Submitter.request sub = request /\
  Submitter.logged sub =
    before ++ [tpl ["Function "; pollFuncName call; " succesfully deployed"]] /\
  Submitter.exitCode sub = exit0 /\
  (exists st, poll sub = Some (Ok tt, st)).
Proof.
  intros F1 F2. cbv zeta. unfold startPoll, waitForDeployment.
  rewrite (run_two_ready (pollFuncName call) (pollRequestMoment call)
             (pollVerbose call) (initial exit0) r1 r2 more)
    by (try reflexivity; try assumption; cbn; lia).
  cbn [snd Poller.promise Poller.logged Poller.exitCode initial
       Submitter.outcome Submitter.request Submitter.logged Submitter.exitCode
       poll thenResolveTrue resolve app].
  repeat split. eexists. reflexivity.
Qed.

(** X24.  When the request is accepted and, on the first two listings of
    the poll, every pod has labels and every pod of the function is ready,
    [deployFunctionAndWait] and [redeployFunctionAndWait] resolve with
    [true]; the poll reads no further listing and the exit code of the
    process is left alone. *)
Theorem accepted_submission_resolves :
  forall (body : FunctionManifest) (ns : string) (verbose : bool) (now : Z)
         (exit0 : option Z) (r1 r2 : PodsResponse) (more : list PodsResponse),
    fullyReady (name body) (requestMomentAt now) r1 = true ->
    fullyReady (name body) (requestMomentAt now) r2 = true ->
    let create := deployFunctionAndWait body ns verbose now exit0 None
                    (r1 :: r2 :: more) in
    let update := redeployFunctionAndWait body ns verbose now exit0 None
                    (r1 :: r2 :: more) in
    Submitter.outcome create = Fulfilled true /\
    Submitter.outcome update = Fulfilled true /\
    Submitter.logged create =
      [tpl ["Deploying function "; name body; "..."];
       tpl ["Function "; name body; " succesfully deployed"]] /\
    Submitter.logged update =
      [tpl ["Function "; name body; " succesfully deployed"]] /\
    Submitter.exitCode create = exit0 /\ Submitter.exitCode update = exit0.
Proof.
  intros body ns verbose now exit0 r1 r2 more F1 F2. cbv zeta.
  unfold deployFunctionAndWait, redeployFunctionAndWait.
  match goal with |- context [startPoll (Post body) ?c ?b exit0 _] =>
    destruct (submit_two_ready (Post body) c b exit0 r1 r2 more F1 F2)
      as (C1 & _ & C3 & C4 & _) end.
  match goal with |- context [startPoll (Put (name body) body) ?c ?b exit0 _] =>
    destruct (submit_two_ready (Put (name body) body) c b exit0 r1 r2 more F1 F2)
      as (U1 & _ & U3 & U4 & _) end.
  cbv zeta in *. rewrite C1, C3, C4, U1, U3, U4. repeat split.
Qed.

Lemma existingFunction_none (items : list Existing) (f : FunctionManifest) :
  existingFunction items f = false -> existingSameFunction items f = false.
Proof.
  unfold existingFunction, existingSameFunction.
  induction items as [|item items IH]; cbn; [reflexivity|].
  destruct (String.eqb (itemName item) (name f)); cbn; [discriminate|exact IH].
Qed.

Lemma ingress_accepted (funcName eventType : string)
    (eventPath eventHostname : option string) (ns : string) (verbose : bool)
    (apiHostname : string) :
  Ingress.outcome (Ingress.addIngressRuleIfNecessary funcName eventType
                     eventPath eventHostname ns verbose apiHostname None) =
  Fulfilled tt.
Proof.
  unfold Ingress.addIngressRuleIfNecessary.
  destruct (String.eqb eventType "http" && _); reflexivity.
Qed.

Variables (n : Z) (opts : Options.t) (h : Helpers).

(** The chain of a fresh creation on a cluster that accepts the POST,
    shows ready pods twice and accepts the ingress POST. *)
Lemma fresh_creation_chain (op : Op) (env : OpEnv) (s : State)
    (items : list Existing) (r1 r2 : PodsResponse) (more : list PodsResponse) :
  listing env = ListOk items ->
  existingFunction items (funcs op) = false ->
  submitErr env = None -> ingressErr env = None ->
  podResponses env = r1 :: r2 :: more ->
  fullyReady (name (funcs op)) (requestMomentAt (now env)) r1 = true ->
  fullyReady (name (funcs op)) (requestMomentAt (now env)) r2 = true ->
  let s' := onFunctionsInfo n opts h op env s in
  errors s' = errors s /\ counter s' = counter s + 1 /\
  outcome s' = settlement n (errors s) (counter s + 1) (outcome s) /\
  requests s' = requests s ++ [Post (funcs op)] /\
  List.length (ingressCalls s') = S (List.length (ingressCalls s)) /\
  exitCode s' = exitCode s /\ uncaught s' = uncaught s.
Proof.
  intros L E SE IE PR F1 F2 s'. subst s'.
  unfold onFunctionsInfo.
  rewrite L, (existingFunction_none _ _ E), E, SE, PR. cbn [andb].
  unfold deployFunctionAndWait.
  match goal with |- context [startPoll (Post (funcs op)) ?c ?b ?x _] =>
    pose proof (submit_two_ready (Post (funcs op)) c b x r1 r2 more F1 F2) as Sub;
    cbv zeta in Sub;
    set (sub := startPoll (Post (funcs op)) c b x (r1 :: r2 :: more)) in *
  end.
  destruct Sub as (S1 & S2 & S3 & S4 & (st & S5)).
  rewrite S1. cbn [afterDeployment]. unfold onDeployed. cbn [negb orb].
  rewrite IE, ingress_accepted. cbn [afterProvision]. unfold onProvisioned.
  unfold afterSubmission.
  cbn [errors counter outcome requests ingressCalls exitCode uncaught].
  rewrite S2, S4, S5, length_app. cbn [List.length].
  repeat split; try reflexivity. lia.
Qed.

End HealthyCluster.

Section HealthyBatch.
Import Manifest Poller Submitter Batch Plan Effect Observation.

Variables (h : Helpers) (runtime : string) (opts : Options.t).

(** X25.  A batch of one descriptor with a handler and one [http] event,
    on a cluster that does not list the function, accepts the POST and the
    ingress POST and shows, on two listings, pods that all have labels and
    ready pods of the function: the batch is fulfilled without error after
    one POST and one call of the ingress provisioner. *)
Theorem single_function_batch_succeeds :
  forall (d : Description.t) (e : Event.t) (now : Z) (items : list Existing)
         (r1 r2 : PodsResponse) (more : list PodsResponse),
    hasHandler d = true -> Description.events d = [e] ->
    Event.type e = "http" ->
    Forall (fun item => itemName item <> Description.id d) items ->
    fullyReady (Description.id d) (requestMomentAt now) r1 = true ->
    fullyReady (Description.id d) (requestMomentAt now) r2 = true ->
    let env := {| listing := ListOk items; now := now; submitErr := None;
                  podResponses := r1 :: r2 :: more; ingressErr := None |} in
    let s := deploy h [d] runtime opts [(0%nat, env)] in
    outcome s = Fulfilled tt /\ errors s = [] /\ counter s = 1 /\
    List.length (requests s) = 1%nat /\ List.length (ingressCalls s) = 1%nat /\
    uncaught s = None.
Proof.
  intros d e now items r1 r2 more Hd He Ht Hi F1 F2 env s.
  assert (Ev : eventsOf d = [e]) by (unfold eventsOf; rewrite He; reflexivity).
  assert (D : deployable [d] = true).
  { unfold deployable. cbn [forallb]. rewrite Hd, Ev. cbn [negb orb forallb].
    unfold supported. rewrite Ht. reflexivity. }
  destruct (eachFunction_deployable h runtime opts [d]
              {| ops := []; skipped := []; thrown := None |} eq_refl D)
    as (new & Sch & Len & W).
  unfold planned in Len. cbn [flat_map] in Len.
  rewrite Hd, Ev in Len. cbn [map app] in Len.
  destruct new as [|op [|op' new]]; try discriminate Len.
  cbn [map] in Len. injection Len as Wd We.
  apply Forall_inv in W. destruct W as (_ & _ & Wn & _).
  unfold manifestOf in Wn. apply getFunctionDescription_name in Wn.
  rewrite Wd in Wn.
  assert (Ex : existingFunction items (funcs op) = false).
  { unfold existingFunction. rewrite Wn. clear -Hi.
    induction Hi as [|item items Hn _ IH]; cbn; [reflexivity|].
    apply String.eqb_neq in Hn. rewrite Hn. exact IH. }
  subst s. unfold deploy. fold (schedule h runtime opts [d]) in Sch.
  rewrite Sch. cbn [ops app fold_left fst snd nth_error].
  set (s0 := started _).
  assert (I : errors s0 = [] /\ counter s0 = 0 /\ outcome s0 = Pending /\
              requests s0 = [] /\ ingressCalls s0 = [] /\ uncaught s0 = None)
    by (repeat split; reflexivity).
  destruct I as (I1 & I2 & I3 & I4 & I5 & I6). rewrite I6.
  destruct (fresh_creation_chain (Z.of_nat (List.length [d])) opts h op env s0
              items r1 r2 more eq_refl Ex eq_refl eq_refl eq_refl)
    as (C1 & C2 & C3 & C4 & C5 & C6 & C7).
  { rewrite Wn. exact F1. }
  { rewrite Wn. exact F2. }
  cbv zeta in *.
  rewrite C1, C2, C3, C4, C5, C7, I1, I2, I3, I4, I5, I6.
  cbn. repeat split; reflexivity.
Qed.

End HealthyBatch.

(** * The further properties on the sample cluster *)

Section BatchExamples.
Import Manifest Poller Submitter Batch Plan Effect Observation Sample
  SampleListing.

(** X13 on [hello] with two [http] events: one operation for each, in
    their order. *)
Lemma schedule_counts_operations_witness :
  map (fun op => (opDescription op, opEvent op))
    (ops (schedule helpers "python2.7" options
            [hello (Some "h.hello") [httpEvent "/a"; httpEvent "/b"]])) =
  [(hello (Some "h.hello") [httpEvent "/a"; httpEvent "/b"], httpEvent "/a");
   (hello (Some "h.hello") [httpEvent "/a"; httpEvent "/b"], httpEvent "/b")].
Proof.
  exact (proj1 (proj2 (proj2 (proj2
           (proj1 (schedule_counts_operations helpers "python2.7" options
                     [hello (Some "h.hello") [httpEvent "/a"; httpEvent "/b"]])
              eq_refl))))).
Defined.

(** X14 on [hello] without handler. *)
Lemma handlerless_batch_never_settles_witness :
  outcome (deploy helpers [hello None []] "python2.7" options
             [(0%nat, healthy None)]) = Pending.
Proof.
  rewrite (handlerless_batch_never_settles helpers "python2.7" options
             [hello None []] [(0%nat, healthy None)]); reflexivity.
Defined.

(** X15 on [hello] with an event of type [cron]. *)
Lemma unsupported_event_rejects_batch_witness :
  outcome (deploy helpers
             [hello (Some "h.hello")
                [{| Event.type := "cron"; Event.path := None;
                    Event.hostname := None; Event.trigger := None |}]]
             "python2.7" options []) =
  Rejected (ErrorObj "Event type cron is not supported").
Proof.
  apply (unsupported_event_rejects_batch helpers
           [hello (Some "h.hello")
              [{| Event.type := "cron"; Event.path := None;
                  Event.hostname := None; Event.trigger := None |}]]
           "python2.7" options).
  reflexivity.
Defined.

(** X16 on two descriptors after one completion. *)
Lemma batch_pending_before_total_witness :
  outcome (deploy helpers
             [hello (Some "h.hello") [httpEvent "/a"];
              hello (Some "h.hello") [httpEvent "/b"]]
             "python2.7" options [(1%nat, healthy None)]) = Pending.
Proof.
  apply (batch_pending_before_total helpers
           [hello (Some "h.hello") [httpEvent "/a"];
            hello (Some "h.hello") [httpEvent "/b"]]
           "python2.7" options).
  - reflexivity.
  - cbn. lia.
Defined.

(** X17 on the single operation of a batch of one descriptor, refused
    with code 500. *)
Lemma batch_settles_at_total_witness :
  outcome (onFunctionsInfo 1 options helpers helloOp
             (refusing {| code := 500; message := "boom" |})
             (started {| ops := [helloOp]; skipped := []; thrown := None |})) =
  match errors (onFunctionsInfo 1 options helpers helloOp
                  (refusing {| code := 500; message := "boom" |})
                  (started {| ops := [helloOp]; skipped := []; thrown := None |}))
  with
  | [] => Fulfilled tt
  | e :: l => Rejected (aggregate (e :: l))
  end.
Proof.
  apply (batch_settles_at_total helpers options 1 helloOp
           (refusing {| code := 500; message := "boom" |})
           (started {| ops := [helloOp]; skipped := []; thrown := None |})).
  - reflexivity.
  - vm_compute. discriminate.
  - reflexivity.
Defined.

(** X20 on a listing that holds [hello] unchanged. *)
Lemma same_function_is_name_and_spec_witness :
  existingFunction [changed; listed] helloManifest = true.
Proof.
  apply (proj2 (proj2 (same_function_is_name_and_spec [changed; listed]
                         helloManifest))).
  reflexivity.
Defined.

(** X21 on a listing that holds [hello] unchanged. *)
Lemma unchanged_function_is_skipped_witness :
  requests (onFunctionsInfo 1 options helpers helloOp (answering [listed] None)
              (started {| ops := [helloOp]; skipped := []; thrown := None |})) = [].
Proof.
  apply (unchanged_function_is_skipped 1 options helpers helloOp
           (answering [listed] None)
           (started {| ops := [helloOp]; skipped := []; thrown := None |})
           [listed] listed).
  - reflexivity.
  - left. reflexivity.
  - reflexivity.
  - reflexivity.
Defined.

(** X22 on a listing that holds [hello] with another handler, without the
    force option. *)
Lemma one_request_per_changed_function_witness :
  requests (onFunctionsInfo 1 options helpers helloOp (answering [changed] None)
              (started {| ops := [helloOp]; skipped := []; thrown := None |})) =
  [Post helloManifest].
Proof.
  apply (one_request_per_changed_function 1 options helpers helloOp
           (answering [changed] None)
           (started {| ops := [helloOp]; skipped := []; thrown := None |})
           [changed]).
  - reflexivity.
  - reflexivity.
Defined.

(** X23 on a POST refused with code 500. *)
Lemma refused_submission_is_recorded_witness :
  counter (onFunctionsInfo 1 options helpers helloOp
             (answering [] (Some {| code := 500; message := "boom" |}))
             (started {| ops := [helloOp]; skipped := []; thrown := None |})) =
  0 + 1.
Proof.
  apply (refused_submission_is_recorded 1 options helpers helloOp
           (answering [] (Some {| code := 500; message := "boom" |}))
           (started {| ops := [helloOp]; skipped := []; thrown := None |})
           [] {| code := 500; message := "boom" |}).
  - reflexivity.
  - reflexivity.
  - reflexivity.
  - right. cbn. lia.
Defined.

(** X24 on the sample manifest and two listings of a ready pod. *)
Lemma accepted_submission_resolves_witness :
  Submitter.outcome
    (deployFunctionAndWait helloManifest "default" false 5700 None None
       [allReady; allReady; noPods]) = Fulfilled true.
Proof.
  apply (accepted_submission_resolves helloManifest "default" false 5700 None
           allReady allReady [noPods]); reflexivity.
Defined.

(** X25 on [hello] with one event on an empty cluster. *)
Lemma single_function_batch_succeeds_witness :
  outcome (deploy helpers [hello (Some "h.hello") [httpEvent "/foo"]]
             "python2.7" options
             [(0%nat, {| Batch.listing := ListOk []; now := 5700;
                         submitErr := None;
                         podResponses := [allReady; allReady];
                         ingressErr := None |})]) = Fulfilled tt.
Proof.
  apply (single_function_batch_succeeds helpers "python2.7" options
           (hello (Some "h.hello") [httpEvent "/foo"]) (httpEvent "/foo") 5700
           [] allReady allReady []); try reflexivity.
  constructor.
Defined.

End BatchExamples.
